(** * ConQuotas (RootfsQuota): identifier pool, state store and reconciliation

    A shallow embedding of the Go packages [pkg/xfs], [pkg/config],
    [pkg/handler] and of the stand-alone program [test/main.go], followed by
    the properties of the specification that concern them.

    Conventions of the embedding:
    - a Go [uint32] is a [Z] in [0, 2^32); the only arithmetic on it in the
      code is [id++], written [wrap32 (id + 1)];
    - a Go map is a stdpp [gmap]; reading a missing key of a
      [map[uint32]bool] yields [false];
    - a Go [error] is an [option error] ([None] is [nil]); a function with
      results [(T, error)] returns a pair, because Go returns both values;
    - everything outside the process (files, the [xfs_io] and [xfs_quota]
      tools, containerd, [encoding/json], [regexp], [strconv]) is an
      [Externals] record of operations over an abstract world;
    - logging calls are left out: they have no effect on the state. *)

From Stdlib Require Import ZArith String List Lia DecimalString.
From stdpp Require Import base option gmap strings list.

Local Open Scope string_scope.
Local Open Scope Z_scope.
Local Open Scope list_scope.

(** ** Go values shared by the packages *)

Definition wrap32 (z : Z) : Z := z mod 2 ^ 32.

Definition max_uint32 : Z := 2 ^ 32 - 1.

Inductive error : Type :=
| ErrNotExist                 (* an error that [os.IsNotExist] recognises *)
| Errorf (format : string)    (* [fmt.Errorf(format, ...)], arguments elided *)
| ErrExternal (msg : string). (* any other error of a library or a tool *)

Definition os_IsNotExist (err : option error) : bool :=
  match err with
  | Some ErrNotExist => true
  | _ => false
  end.

(** [strings.HasPrefix] and [strings.TrimPrefix] *)
Definition HasPrefix (s pre : string) : bool := String.prefix pre s.

Definition TrimPrefix (s pre : string) : string :=
  if HasPrefix s pre
  then String.substring (String.length pre)
                        (String.length s - String.length pre) s
  else s.

(** The verb [%d] of [fmt.Sprintf] on an unsigned value. *)
Definition fmt_d (n : Z) : string := NilZero.string_of_int (Z.to_int n).

(** [s[i]] on a slice: a run-time panic out of range. *)
Definition index {A : Type} (l : list A) (i : nat) : option A := nth_error l i.

(** The fields of containerd's [mount.Mount], [containers.Container],
    [events.TaskCreate] and [events.TaskDelete] that the code reads. *)
Record Mount : Type := {
  Mount_Type : string;
  Mount_Options : list string
}.

Record Info : Type := {
  Snapshotter : string;
  SnapshotKey : string
}.

Record TaskCreate : Type := {
  TaskCreate_ContainerID : string;
  TaskCreate_Rootfs : list Mount
}.

Record TaskDelete : Type := {
  TaskDelete_ContainerID : string
}.

(** ** Package xfs: the identifier pool (pkg/xfs/projectid.go), the state
    manager and the quota tools *)

Module xfs.

Record ProjectIDPool : Type := mkPool {
  used : gmap Z bool;
  minID : Z;
  maxID : Z
}.

Definition NewProjectIDPool (minID maxID : Z) : ProjectIDPool :=
  {| used := ∅; minID := minID; maxID := maxID |}.

(** [p.used[id]] *)
Definition used_at (p : ProjectIDPool) (id : Z) : bool :=
  default false (used p !! id).

Definition set_used (p : ProjectIDPool) (u : gmap Z bool) : ProjectIDPool :=
  {| used := u; minID := minID p; maxID := maxID p |}.

(** The loop of [Allocate], started at [id].  One unit of fuel is one
    evaluation of the loop condition; [None] is a loop that has not
    returned within the fuel. *)
Fixpoint Allocate_loop (fuel : nat) (p : ProjectIDPool) (id : Z)
  : option (Z * option error * ProjectIDPool) :=
  match fuel with
  | O => None
  | S fuel' =>
      if id <=? maxID p then
        if negb (used_at p id) then
          Some (id, None, set_used p (<[id := true]> (used p)))
        else Allocate_loop fuel' p (wrap32 (id + 1))
      else Some (0, Some (Errorf "no available project ID"), p)
  end.

Definition Allocate (fuel : nat) (p : ProjectIDPool)
  : option (Z * option error * ProjectIDPool) :=
  Allocate_loop fuel p (minID p).

Definition Release (p : ProjectIDPool) (id : Z) : ProjectIDPool :=
  set_used p (delete id (used p)).

Definition MarkUsed (p : ProjectIDPool) (id : Z) : ProjectIDPool :=
  set_used p (<[id := true]> (used p)).

(** Fuel that lets the loop of [Allocate] run over the whole range. *)
Definition range_fuel (p : ProjectIDPool) : nat :=
  Z.to_nat (maxID p - minID p) + 2.

(** The in-use set lies in the configured range. *)
Definition in_range (p : ProjectIDPool) : Prop :=
  ∀ id, used_at p id = true → minID p <= id <= maxID p.

(** A call of the pool's interface, and a sequence of them. *)
Inductive PoolOp : Type :=
| OpAllocate
| OpRelease (id : Z)
| OpMarkUsed (id : Z).

Definition apply_op (fuel : nat) (p : ProjectIDPool) (op : PoolOp)
  : option ProjectIDPool :=
  match op with
  | OpAllocate =>
      match Allocate fuel p with
      | Some (_, _, p') => Some p'
      | None => None
      end
  | OpRelease id => Some (Release p id)
  | OpMarkUsed id => Some (MarkUsed p id)
  end.

Fixpoint run_ops (fuel : nat) (p : ProjectIDPool) (ops : list PoolOp)
  : option ProjectIDPool :=
  match ops with
  | [] => Some p
  | op :: ops' =>
      match apply_op fuel p op with
      | Some p' => run_ops fuel p' ops'
      | None => None
      end
  end.

(** *** The state manager: types *)

Record Entry : Type := {
  ContainerID : string;
  ProjectID : Z;
  Upperdir : string
}.

(** The zero value of [Entry], which a map read returns for a missing key. *)
Definition Entry_zero : Entry :=
  {| ContainerID := ""; ProjectID := 0; Upperdir := "" |}.

Record State : Type := {
  Entries : gmap string Entry
}.

Record StateManager : Type := {
  filePath : string;
  state : State
}.

Definition set_state (m : StateManager) (st : State) : StateManager :=
  {| filePath := filePath m; state := st |}.

(** *** What the package calls outside the process

    Each operation takes the world before the call and returns the Go
    results with the world after it.  Nothing is assumed about them. *)
Record Externals (World : Type) : Type := {
  os_ReadFile : string → World → list Byte.byte * option error * World;
  os_WriteFile : string → list Byte.byte → World → option error * World;
  os_MkdirAll : string → World → option error * World;
  (* [os.Create] with the [Close] of the file it returns *)
  os_Create : string → World → option error * World;
  os_Stat : string → World → option error * World;
  filepath_Dir : string → string;
  json_MarshalIndent : State → string → string → list Byte.byte * option error;
  json_Unmarshal : list Byte.byte → State → State * option error;
  (* [exec.Command(name, args...).CombinedOutput()] *)
  exec_CombinedOutput :
    string → list string → World → string * option error * World;
  regexp_FindStringSubmatch : string → string → list string;
  strconv_ParseUint : string → Z → Z → Z * option error;
  client_Containers : World → list string * option error * World;
  client_LoadContainer : string → World → option error * World;
  container_Info : string → World → Info * option error * World;
  snapshotter_Mounts :
    string → string → World → list Mount * option error * World
}.

Arguments os_ReadFile {World}.
Arguments os_WriteFile {World}.
Arguments os_MkdirAll {World}.
Arguments os_Create {World}.
Arguments os_Stat {World}.
Arguments filepath_Dir {World}.
Arguments json_MarshalIndent {World}.
Arguments json_Unmarshal {World}.
Arguments exec_CombinedOutput {World}.
Arguments regexp_FindStringSubmatch {World}.
Arguments strconv_ParseUint {World}.
Arguments client_Containers {World}.
Arguments client_LoadContainer {World}.
Arguments container_Info {World}.
Arguments snapshotter_Mounts {World}.

Section WithWorld.
Context {World : Type} (ext : Externals World).

(** *** The state manager: operations *)

Definition load (m : StateManager) (w : World)
  : option error * StateManager * World :=
  let '(data, err, w1) := os_ReadFile ext (filePath m) w in
  match err with
  | Some _ => (err, m, w1)
  | None =>
      if (length data =? 0)%nat
         || negb (size (Entries (state m)) =? 0)%nat
      then (None, m, w1)
      else
        let '(st, err) := json_Unmarshal ext data (state m) in
        (err, set_state m st, w1)
  end.

Definition NewStateManager (filePath : string) (w : World)
  : option StateManager * option error * World :=
  let m := {| filePath := filePath; state := {| Entries := ∅ |} |} in
  let '(err, m, w1) := load m w in
  match err with
  | Some _ =>
      if os_IsNotExist err then
        let '(err, w2) := os_MkdirAll ext (filepath_Dir ext filePath) w1 in
        match err with
        | Some _ => (None, err, w2)
        | None =>
            let '(err, w3) := os_Create ext filePath w2 in
            match err with
            | Some _ => (None, err, w3)
            | None => (Some m, None, w3)
            end
        end
      else (None, err, w1)
  | None => (Some m, None, w1)
  end.

Definition save (m : StateManager) (w : World) : option error * World :=
  let '(data, err) := json_MarshalIndent ext (state m) "" "  " in
  match err with
  | Some _ => (err, w)
  | None => os_WriteFile ext (filePath m) data w
  end.

Definition AddEntry (containerID : string) (projectID : Z)
    (upperdir : string) (m : StateManager) (w : World)
  : option error * StateManager * World :=
  let entry := {| ContainerID := containerID;
                  ProjectID := projectID;
                  Upperdir := upperdir |} in
  let m' :=
    set_state m {| Entries := <[containerID := entry]> (Entries (state m)) |}
  in
  let '(err, w') := save m' w in
  (err, m', w').

Definition RemoveEntry (containerID : string) (m : StateManager) (w : World)
  : option error * StateManager * World :=
  let m' :=
    set_state m {| Entries := delete containerID (Entries (state m)) |} in
  let '(err, w') := save m' w in
  (err, m', w').

Definition GetEntry (containerID : string) (m : StateManager)
  : Entry * bool :=
  match Entries (state m) !! containerID with
  | Some entry => (entry, true)
  | None => (Entry_zero, false)
  end.

(** *** The quota tools (pkg/xfs, the file of [GetProjectIDFromXFS]) *)

Definition GetProjectIDFromXFS (path : string) (w : World)
  : Z * option error * World :=
  let '(output, err, w1) :=
    exec_CombinedOutput ext "xfs_io" ["-r"; "-c"; "stat"; path] w in
  match err with
  | Some _ =>
      (0, Some (Errorf "failed to execute xfs_io: %v, output: %s"), w1)
  | None =>
      let matches :=
        regexp_FindStringSubmatch ext "projid\s*=\s*(\d+)" output in
      if (length matches <? 2)%nat
      then (0, Some (Errorf "projid not found"), w1)
      else
        let '(projid, err) :=
          strconv_ParseUint ext (nth 1 matches "") 10 32 in
        match err with
        | Some _ => (0, Some (Errorf "failed to parse projid: %v"), w1)
        | None => (wrap32 projid, None, w1)
        end
  end.

Definition SetProjectIDWithXFSQuota (path : string) (projid : Z) (w : World)
  : option error * World :=
  let cmdStr := "project -s -p " +:+ path +:+ " " +:+ fmt_d projid in
  let '(output, err, w1) :=
    exec_CombinedOutput ext "xfs_quota" ["-x"; "-c"; cmdStr] w in
  match err with
  | Some _ =>
      (Some (Errorf "failed to execute xfs_quota: %v, output: %s"), w1)
  | None => (None, w1)
  end.

Definition SetProjectQuotaWithXFSQuota (projid : Z) (bsoft bhard : string)
    (w : World) : option error * World :=
  let cmdStr :=
    "limit -p bsoft=" +:+ bsoft +:+ " bhard=" +:+ bhard +:+ " "
      +:+ fmt_d projid in
  let '(output, err, w1) :=
    exec_CombinedOutput ext "xfs_quota" ["-x"; "-c"; cmdStr] w in
  match err with
  | Some _ =>
      (Some (Errorf "failed to execute xfs_quota: %v, output: %s"), w1)
  | None => (None, w1)
  end.

(** The two nested loops of [GetSnapshotUpperdir]: the last [upperdir=]
    option of the overlay mounts. *)
Definition scan_options (upperDir : string) (opts : list string) : string :=
  fold_left
    (λ upperDir opt,
       if HasPrefix opt "upperdir=" then TrimPrefix opt "upperdir="
       else upperDir)
    opts upperDir.

Definition scan_mounts (mounts : list Mount) : string :=
  fold_left
    (λ upperDir mount,
       if String.eqb (Mount_Type mount) "overlay"
       then scan_options upperDir (Mount_Options mount)
       else upperDir)
    mounts "".

Definition GetSnapshotUpperdir (containerID : string) (w : World)
  : string * option error * World :=
  let '(err, w1) := client_LoadContainer ext containerID w in
  match err with
  | Some _ => ("", err, w1)
  | None =>
      let '(info, err, w2) := container_Info ext containerID w1 in
      match err with
      | Some _ => ("", err, w2)
      | None =>
          let '(mounts, err, w3) :=
            snapshotter_Mounts ext (Snapshotter info) (SnapshotKey info) w2
          in
          match err with
          | Some _ => ("", err, w3)
          | None =>
              let upperDir := scan_mounts mounts in
              if String.eqb upperDir ""
              then
                ("", Some (Errorf "upperdir not found for container %s"), w3)
              else (upperDir, None, w3)
          end
      end
  end.

End WithWorld.

End xfs.

(** ** Package config: the fields of the two configuration records *)

(** pkg/config/config.go, read by pkg/handler *)
Module config.

Record ProjectConfig : Type := {
  IDMin : Z;
  IDMax : Z
}.

Record QuotaConfig : Type := {
  DefaultSoft : string;
  DefaultHard : string
}.

Record Config : Type := {
  StateFilePath : string;
  Project : ProjectConfig;
  MetricsPort : string;
  ContainerdSock : string;
  Quota : QuotaConfig;
  Namespace : string
}.

End config.

(** the flat record with [DefaultQuotaSoft], read by test/main.go *)
Module config_flat.

Record Config : Type := {
  StateFilePath : string;
  ProjectIDMin : Z;
  ProjectIDMax : Z;
  MetricsPort : string;
  ContainerdSock : string;
  DefaultQuotaSoft : string;
  DefaultQuotaHard : string;
  Namespace : string
}.

End config_flat.

(** ** The running process

    The state manager and the pool are created once and reached through
    pointers by every handler, so they are fields of one machine state,
    together with the world and with the calls made so far (in order),
    which the code does not keep: it is there to state which calls a
    handler makes.  A computation returns, panics, or runs out of the fuel
    given to the loop of [Allocate]. *)

Module engine.

Inductive Call : Type :=
| CallAllocate
| CallRelease (id : Z)
| CallMarkUsed (id : Z)
| CallAddEntry (containerID : string) (projectID : Z) (upperdir : string)
| CallRemoveEntry (containerID : string)
| CallGetEntry (containerID : string)
| CallSetProjectID (path : string) (projid : Z)
| CallSetProjectQuota (projid : Z) (bsoft bhard : string)
| CallGetProjectIDFromXFS (path : string)
| CallGetSnapshotUpperdir (containerID : string)
| CallStat (path : string)
| CallContainers.

Record Machine (World : Type) : Type := {
  stateManager : xfs.StateManager;
  projectIDPool : xfs.ProjectIDPool;
  world : World;
  trace : list Call
}.

Arguments stateManager {World}.
Arguments projectIDPool {World}.
Arguments world {World}.
Arguments trace {World}.

Inductive Outcome (S A : Type) : Type :=
| Ret (a : A) (s : S)
| Panic (msg : string)
| OutOfFuel.

Arguments Ret {S A}.
Arguments Panic {S A}.
Arguments OutOfFuel {S A}.

Definition Eng (World A : Type) : Type :=
  Machine World → Outcome (Machine World) A.

Definition ret {World A : Type} (a : A) : Eng World A := λ s, Ret a s.

Definition bind {World A B : Type} (c : Eng World A) (k : A → Eng World B)
  : Eng World B :=
  λ s, match c s with
       | Ret a s' => k a s'
       | Panic msg => Panic msg
       | OutOfFuel => OutOfFuel
       end.

Notation "'let*' x ':=' c 'in' k" := (bind c (λ x, k))
  (at level 10, x pattern, c at level 99, k at level 200).
Notation "c ;; k" := (bind c (λ _, k))
  (at level 100, k at level 200, right associativity).

Section WithWorld.
Context {World : Type} (ext : xfs.Externals World).

Definition record (c : Call) : Eng World unit :=
  λ s, Ret tt {| stateManager := stateManager s;
                 projectIDPool := projectIDPool s;
                 world := world s;
                 trace := trace s ++ [c] |}.

Definition on_world {A : Type} (f : World → A * World) : Eng World A :=
  λ s, let '(a, w) := f (world s) in
       Ret a {| stateManager := stateManager s;
                projectIDPool := projectIDPool s;
                world := w;
                trace := trace s |}.

Definition on_stateManager {A : Type}
    (f : xfs.StateManager → World → A * xfs.StateManager * World)
  : Eng World A :=
  λ s, let '(a, m, w) := f (stateManager s) (world s) in
       Ret a {| stateManager := m;
                projectIDPool := projectIDPool s;
                world := w;
                trace := trace s |}.

Definition on_pool (f : xfs.ProjectIDPool → xfs.ProjectIDPool)
  : Eng World unit :=
  λ s, Ret tt {| stateManager := stateManager s;
                 projectIDPool := f (projectIDPool s);
                 world := world s;
                 trace := trace s |}.

(** [s[i]] *)
Definition at_index {A : Type} (l : list A) (i : nat) : Eng World A :=
  λ s, match index l i with
       | Some a => Ret a s
       | None => Panic "index out of range"
       end.

(** [for _, x := range l { body }] *)
Fixpoint for_range {A : Type} (l : list A) (body : A → Eng World unit)
  : Eng World unit :=
  match l with
  | [] => ret tt
  | x :: l' => body x ;; for_range l' body
  end.

(** The methods of the pool and of the state manager, and the functions
    of package xfs, as the handlers call them. *)

Definition Allocate (fuel : nat) : Eng World (Z * option error) :=
  record CallAllocate ;;
  λ s, match xfs.Allocate fuel (projectIDPool s) with
       | Some (id, err, p) =>
           Ret (id, err) {| stateManager := stateManager s;
                            projectIDPool := p;
                            world := world s;
                            trace := trace s |}
       | None => OutOfFuel
       end.

Definition Release (id : Z) : Eng World unit :=
  record (CallRelease id) ;; on_pool (λ p, xfs.Release p id).

Definition MarkUsed (id : Z) : Eng World unit :=
  record (CallMarkUsed id) ;; on_pool (λ p, xfs.MarkUsed p id).

Definition AddEntry (containerID : string) (projectID : Z)
    (upperdir : string) : Eng World (option error) :=
  record (CallAddEntry containerID projectID upperdir) ;;
  on_stateManager (xfs.AddEntry ext containerID projectID upperdir).

Definition RemoveEntry (containerID : string) : Eng World (option error) :=
  record (CallRemoveEntry containerID) ;;
  on_stateManager (xfs.RemoveEntry ext containerID).

Definition GetEntry (containerID : string) : Eng World (xfs.Entry * bool) :=
  record (CallGetEntry containerID) ;;
  λ s, Ret (xfs.GetEntry containerID (stateManager s)) s.

Definition SetProjectIDWithXFSQuota (path : string) (projid : Z)
  : Eng World (option error) :=
  record (CallSetProjectID path projid) ;;
  on_world (xfs.SetProjectIDWithXFSQuota ext path projid).

Definition SetProjectQuotaWithXFSQuota (projid : Z) (bsoft bhard : string)
  : Eng World (option error) :=
  record (CallSetProjectQuota projid bsoft bhard) ;;
  on_world (xfs.SetProjectQuotaWithXFSQuota ext projid bsoft bhard).

Definition GetProjectIDFromXFS (path : string)
  : Eng World (Z * option error) :=
  record (CallGetProjectIDFromXFS path) ;;
  on_world (xfs.GetProjectIDFromXFS ext path).

Definition GetSnapshotUpperdir (containerID : string)
  : Eng World (string * option error) :=
  record (CallGetSnapshotUpperdir containerID) ;;
  on_world (xfs.GetSnapshotUpperdir ext containerID).

Definition Stat (path : string) : Eng World (option error) :=
  record (CallStat path) ;; on_world (xfs.os_Stat ext path).

Definition Containers : Eng World (list string * option error) :=
  record CallContainers ;; on_world (xfs.client_Containers ext).

End WithWorld.

End engine.

(** [err != nil] *)
Definition notnil (err : option error) : bool :=
  match err with
  | Some _ => true
  | None => false
  end.

(** What [typeurl.UnmarshalAny] makes of the event of an envelope. *)
Inductive Event : Type :=
| EventTaskCreate (e : TaskCreate)
| EventTaskDelete (e : TaskDelete)
| EventOther.

Inductive Envelope : Type :=
| Decoded (event : Event)
| Undecodable (err : error).

(** ** Package handler (pkg/handler/utils.go, pkg/handler/handle.go)

    The receiver [q] of the methods is the machine state together with the
    configuration [cfg], which no method changes. *)

Module handler.
Import engine.

Section WithWorld.
Context {World : Type} (ext : xfs.Externals World).

Definition GetProjectID (containerId path : string)
  : Eng World (Z * option error) :=
  let* (id, err) := GetProjectIDFromXFS ext path in
  let* (entry, exists_) := GetEntry containerId in
  if negb exists_ && notnil err then
    ret (id, Some (Errorf "failed get projid from stateManager: %v"))
  else if negb (id =? 0) && negb (xfs.ProjectID entry =? id) && exists_ then
    ret (id, Some (Errorf
      "containereId %v, wrong projied-> xfs: %v, stateManager: %v"))
  else ret (id, None).

Definition handleTaskCreate (fuel : nat) (cfg : config.Config)
    (e : TaskCreate) : Eng World (option error) :=
  let* rootfs0 := at_index (TaskCreate_Rootfs e) 0 in
  let* option1 := at_index (Mount_Options rootfs0) 1 in
  let upperdir := TrimPrefix option1 "upperdir=" in
  let* (projID, err) := Allocate fuel in
  match err with
  | Some _ => ret err
  | None =>
      let* err := SetProjectIDWithXFSQuota ext upperdir projID in
      match err with
      | Some _ => Release projID ;; ret err
      | None =>
          let* err :=
            SetProjectQuotaWithXFSQuota ext projID
              (config.DefaultSoft (config.Quota cfg))
              (config.DefaultSoft (config.Quota cfg)) in
          match err with
          | Some _ => Release projID ;; ret err
          | None =>
              let* err :=
                AddEntry ext (TaskCreate_ContainerID e) projID upperdir in
              match err with
              | Some _ => Release projID ;; ret err
              | None => ret None
              end
          end
      end
  end.

Definition handleTaskDelete (e : TaskDelete) : Eng World (option error) :=
  let* (upperdir, err) :=
    GetSnapshotUpperdir ext (TaskDelete_ContainerID e) in
  match err with
  | Some _ => ret err
  | None =>
      let* staterr := Stat ext upperdir in
      let* (projID, err) :=
        match staterr with
        | None => GetProjectID (TaskDelete_ContainerID e) upperdir
        | Some _ => ret (0, None)
        end in
      match err with
      | Some _ => ret err
      | None =>
          let* err := SetProjectQuotaWithXFSQuota ext projID "0" "0" in
          match err with
          | Some _ => ret err
          | None =>
              let* err := RemoveEntry ext (TaskDelete_ContainerID e) in
              match err with
              | Some _ => ret err
              | None => Release projID ;; ret None
              end
          end
      end
  end.

Definition handleEvent (fuel : nat) (cfg : config.Config)
    (envelope : Envelope) : Eng World (option error) :=
  match envelope with
  | Undecodable err => ret (Some err)
  | Decoded (EventTaskCreate e) => handleTaskCreate fuel cfg e
  | Decoded (EventTaskDelete e) => handleTaskDelete e
  | Decoded EventOther => ret None
  end.

Definition restoreQuota (fuel : nat) (cfg : config.Config)
    (containerID upperdir : string) : Eng World (option error) :=
  let* (projID, err) := Allocate fuel in
  match err with
  | Some _ => ret err
  | None =>
      let* err := SetProjectIDWithXFSQuota ext upperdir projID in
      match err with
      | Some _ => Release projID ;; ret err
      | None =>
          let* err :=
            SetProjectQuotaWithXFSQuota ext projID
              (config.DefaultSoft (config.Quota cfg))
              (config.DefaultHard (config.Quota cfg)) in
          match err with
          | Some _ => Release projID ;; ret err
          | None => AddEntry ext containerID projID upperdir
          end
      end
  end.

(** One iteration of the loop of [syncState]. *)
Definition syncState_body (fuel : nat) (cfg : config.Config) (id : string)
  : Eng World unit :=
  let* (upperdir, err) := GetSnapshotUpperdir ext id in
  match err with
  | Some _ => ret tt
  | None =>
      let* staterr := Stat ext upperdir in
      if os_IsNotExist staterr then ret tt
      else
        let* (_, exists_) := GetEntry id in
        if negb exists_ then restoreQuota fuel cfg id upperdir ;; ret tt
        else ret tt
  end.

Definition syncState (fuel : nat) (cfg : config.Config)
  : Eng World (option error) :=
  let* (containers, err) := Containers ext in
  match err with
  | Some _ => ret err
  | None => for_range containers (syncState_body fuel cfg) ;; ret None
  end.

End WithWorld.

End handler.

(** ** The stand-alone program test/main.go

    [runEventListener_TaskCreate] and [runEventListener_TaskDelete] are the
    two cases of the switch in the loop of [runEventListener]; each ends
    the iteration, with [continue] or at the end of the case. *)

Module test_main.
Import engine.

Section WithWorld.
Context {World : Type} (ext : xfs.Externals World).

Definition runEventListener_TaskCreate (fuel : nat)
    (cfg : config_flat.Config) (e : TaskCreate) : Eng World unit :=
  let* rootfs0 := at_index (TaskCreate_Rootfs e) 0 in
  let* option1 := at_index (Mount_Options rootfs0) 1 in
  let upperdir := TrimPrefix option1 "upperdir=" in
  let* (projID, err) := Allocate fuel in
  match err with
  | Some _ => ret tt
  | None =>
      let* err := SetProjectIDWithXFSQuota ext upperdir projID in
      match err with
      | Some _ => Release projID
      | None =>
          let* err :=
            SetProjectQuotaWithXFSQuota ext projID
              (config_flat.DefaultQuotaSoft cfg)
              (config_flat.DefaultQuotaHard cfg) in
          match err with
          | Some _ => Release projID
          | None =>
              AddEntry ext (TaskCreate_ContainerID e) projID upperdir ;;
              ret tt
          end
      end
  end.

Definition runEventListener_TaskDelete (e : TaskDelete) : Eng World unit :=
  let* (updir, err) :=
    GetSnapshotUpperdir ext (TaskDelete_ContainerID e) in
  match err with
  | Some _ => ret tt
  | None =>
      let* staterr := Stat ext updir in
      let* (id, err) :=
        match staterr with
        | None => handler.GetProjectID ext (TaskDelete_ContainerID e) updir
        | Some _ => ret (0, None)
        end in
      match err with
      | Some _ => ret tt
      | None =>
          SetProjectQuotaWithXFSQuota ext id "0" "0" ;;
          RemoveEntry ext (TaskDelete_ContainerID e) ;;
          Release id
      end
  end.

(** One iteration of the loop of [runEventListener] on an envelope. *)
Definition runEventListener_event (fuel : nat) (cfg : config_flat.Config)
    (envelope : Envelope) : Eng World unit :=
  match envelope with
  | Undecodable _ => ret tt
  | Decoded (EventTaskCreate e) => runEventListener_TaskCreate fuel cfg e
  | Decoded (EventTaskDelete e) => runEventListener_TaskDelete e
  | Decoded EventOther => ret tt
  end.

(** One iteration of the loop of [syncState]. *)
Definition syncState_body (fuel : nat) (cfg : config_flat.Config)
    (id : string) : Eng World unit :=
  let* (upperdir, err) := GetSnapshotUpperdir ext id in
  match err with
  | Some _ => ret tt
  | None =>
      let* staterr := Stat ext upperdir in
      if os_IsNotExist staterr then ret tt
      else
        let* (entry, exists_) := GetEntry id in
        if negb exists_ then
          let* (projID, err) := Allocate fuel in
          match err with
          | Some _ => ret tt
          | None =>
              let* err := SetProjectIDWithXFSQuota ext upperdir projID in
              match err with
              | Some _ => Release projID
              | None =>
                  let* err :=
                    SetProjectQuotaWithXFSQuota ext projID
                      (config_flat.DefaultQuotaSoft cfg)
                      (config_flat.DefaultQuotaHard cfg) in
                  match err with
                  | Some _ => Release projID
                  | None => AddEntry ext id projID upperdir ;; ret tt
                  end
              end
          end
        else MarkUsed (xfs.ProjectID entry)
  end.

Definition syncState (fuel : nat) (cfg : config_flat.Config)
  : Eng World (option error) :=
  let* (containers, err) := Containers ext in
  match err with
  | Some _ => ret err
  | None => for_range containers (syncState_body fuel cfg) ;; ret None
  end.

End WithWorld.

End test_main.

(** ** An in-memory world

    A stand-in for the file system, the quota tools and containerd, used to
    run the embedding on concrete inputs.  Files are a map from paths to
    contents; [xfs_io] prints the tag of a path as a decimal number and the
    [regexp] and [strconv] stand-ins read it back; [xfs_quota] appends its
    command to [commands]; the JSON codec does not interpret documents. *)

Module fake.

Record World : Type := {
  files : gmap string (list Byte.byte);
  paths : list string;            (* the paths [os.Stat] finds *)
  tags : gmap string Z;           (* the project identifier of each path *)
  live : list (string * string);  (* live containers with their upperdir *)
  write_fails : bool;             (* [os.WriteFile] fails *)
  tag_fails : bool;               (* [xfs_quota -c "project ..."] fails *)
  limit_fails : bool;             (* [xfs_quota -c "limit ..."] fails *)
  readback_fails : bool;          (* [xfs_io] fails *)
  commands : list string          (* the [xfs_quota] commands run so far *)
}.

Definition set_files (w : World) (f : gmap string (list Byte.byte)) : World :=
  {| files := f; paths := paths w; tags := tags w; live := live w;
     write_fails := write_fails w; tag_fails := tag_fails w;
     limit_fails := limit_fails w; readback_fails := readback_fails w;
     commands := commands w |}.

Definition add_command (w : World) (c : string) : World :=
  {| files := files w; paths := paths w; tags := tags w; live := live w;
     write_fails := write_fails w; tag_fails := tag_fails w;
     limit_fails := limit_fails w; readback_fails := readback_fails w;
     commands := commands w ++ [c] |}.

Definition upperdir_of (w : World) (containerID : string) : option string :=
  snd <$> List.find (λ c, String.eqb (fst c) containerID) (live w).

Definition ReadFile (path : string) (w : World)
  : list Byte.byte * option error * World :=
  match files w !! path with
  | Some data => (data, None, w)
  | None => ([], Some ErrNotExist, w)
  end.

Definition WriteFile (path : string) (data : list Byte.byte) (w : World)
  : option error * World :=
  if write_fails w then (Some (ErrExternal "read-only file system"), w)
  else (None, set_files w (<[path := data]> (files w))).

Definition Create (path : string) (w : World) : option error * World :=
  (None, set_files w (<[path := []]> (files w))).

Definition Stat (path : string) (w : World) : option error * World :=
  if existsb (String.eqb path) (paths w) then (None, w)
  else (Some ErrNotExist, w).

Definition MarshalIndent (st : xfs.State) (pre indent : string)
  : list Byte.byte * option error :=
  ([Byte.x7b; Byte.x7d], None).

Definition Unmarshal (data : list Byte.byte) (st : xfs.State)
  : xfs.State * option error :=
  match data with
  | [] => (st, Some (ErrExternal "unexpected end of JSON input"))
  | _ => (st, None)
  end.

Definition CombinedOutput (name : string) (args : list string) (w : World)
  : string * option error * World :=
  if String.eqb name "xfs_io" then
    if readback_fails w then ("", Some (ErrExternal "exit status 1"), w)
    else (fmt_d (default 0 (tags w !! List.last args "")), None, w)
  else
    let cmd := nth 2 args "" in
    if (if HasPrefix cmd "project" then tag_fails w else limit_fails w)
    then ("", Some (ErrExternal "exit status 1"), add_command w cmd)
    else ("", None, add_command w cmd).

Definition FindStringSubmatch (re output : string) : list string :=
  if String.eqb output "" then [] else [output; output].

Definition ParseUint (str : string) (base bits : Z) : Z * option error :=
  match NilZero.uint_of_string str with
  | Some u => (Z.of_uint u, None)
  | None => (0, Some (ErrExternal "invalid syntax"))
  end.

Definition LoadContainer (containerID : string) (w : World)
  : option error * World :=
  match upperdir_of w containerID with
  | Some _ => (None, w)
  | None => (Some (ErrExternal "container not found"), w)
  end.

Definition Mounts (snapshotter key : string) (w : World)
  : list Mount * option error * World :=
  match upperdir_of w key with
  | Some upperdir =>
      ([{| Mount_Type := "overlay";
           Mount_Options := ["lowerdir=/l"; "upperdir=" +:+ upperdir] |}],
       None, w)
  | None => ([], Some (ErrExternal "snapshot not found"), w)
  end.

Definition externals : xfs.Externals World :=
  {| xfs.os_ReadFile := ReadFile;
     xfs.os_WriteFile := WriteFile;
     xfs.os_MkdirAll := λ _ w, (None, w);
     xfs.os_Create := Create;
     xfs.os_Stat := Stat;
     xfs.filepath_Dir := λ path, "/";
     xfs.json_MarshalIndent := MarshalIndent;
     xfs.json_Unmarshal := Unmarshal;
     xfs.exec_CombinedOutput := CombinedOutput;
     xfs.regexp_FindStringSubmatch := FindStringSubmatch;
     xfs.strconv_ParseUint := ParseUint;
     xfs.client_Containers := λ w, (fst <$> live w, None, w);
     xfs.client_LoadContainer := LoadContainer;
     xfs.container_Info :=
       λ containerID w,
         ({| Snapshotter := "overlayfs"; SnapshotKey := containerID |},
          None, w);
     xfs.snapshotter_Mounts := Mounts |}.

(** A world with one live container [c1] whose upperdir exists. *)
Definition world_c1 (tag : option Z) : World :=
  {| files := {[ "/var/lib/quota/state.json" := [] ]};
     paths := ["/var/lib/x/c1"];
     tags := match tag with
             | Some id => {[ "/var/lib/x/c1" := id ]}
             | None => ∅
             end;
     live := [("c1", "/var/lib/x/c1")];
     write_fails := false; tag_fails := false;
     limit_fails := false; readback_fails := false;
     commands := [] |}.

Definition with_failures (w : World) (write tag limit : bool) : World :=
  {| files := files w; paths := paths w; tags := tags w; live := live w;
     write_fails := write; tag_fails := tag;
     limit_fails := limit; readback_fails := readback_fails w;
     commands := commands w |}.

Definition entry_c1 (id : Z) : xfs.Entry :=
  {| xfs.ContainerID := "c1"; xfs.ProjectID := id;
     xfs.Upperdir := "/var/lib/x/c1" |}.

Definition manager (entries : gmap string xfs.Entry) : xfs.StateManager :=
  {| xfs.filePath := "/var/lib/quota/state.json";
     xfs.state := {| xfs.Entries := entries |} |}.

Definition machine (m : xfs.StateManager) (p : xfs.ProjectIDPool) (w : World)
  : engine.Machine World :=
  {| engine.stateManager := m; engine.projectIDPool := p;
     engine.world := w; engine.trace := [] |}.

Definition cfg (lo hi : Z) (soft hard : string) : config.Config :=
  {| config.StateFilePath := "/var/lib/quota/state.json";
     config.Project := {| config.IDMin := lo; config.IDMax := hi |};
     config.MetricsPort := "";
     config.ContainerdSock := "/run/containerd/containerd.sock";
     config.Quota := {| config.DefaultSoft := soft;
                        config.DefaultHard := hard |};
     config.Namespace := "default" |}.

Definition cfg_flat (lo hi : Z) (soft hard : string) : config_flat.Config :=
  {| config_flat.StateFilePath := "/var/lib/quota/state.json";
     config_flat.ProjectIDMin := lo;
     config_flat.ProjectIDMax := hi;
     config_flat.MetricsPort := "9100";
     config_flat.ContainerdSock := "/run/containerd/containerd.sock";
     config_flat.DefaultQuotaSoft := soft;
     config_flat.DefaultQuotaHard := hard;
     config_flat.Namespace := "default" |}.

(** The creation event of container [c1]. *)
Definition create_c1 : TaskCreate :=
  {| TaskCreate_ContainerID := "c1";
     TaskCreate_Rootfs :=
       [{| Mount_Type := "overlay";
           Mount_Options := ["lowerdir=/l"; "upperdir=/var/lib/x/c1"] |}] |}.

Definition delete_c1 : TaskDelete := {| TaskDelete_ContainerID := "c1" |}.

End fake.

(** ** Loading the configuration (pkg/config/config.go and the flat
    variant)

    [json.Unmarshal(data, &cfg)] on a zero-valued [cfg] is the parameter
    [decode]: no field of [Externals] decodes a configuration. *)

Module config_file.
Import config.

Definition Config_zero : Config :=
  {| StateFilePath := "";
     Project := {| IDMin := 0; IDMax := 0 |};
     MetricsPort := "";
     ContainerdSock := "";
     Quota := {| DefaultSoft := ""; DefaultHard := "" |};
     Namespace := "" |}.

Definition set_MetricsPort (cfg : Config) (v : string) : Config :=
  {| StateFilePath := StateFilePath cfg; Project := Project cfg;
     MetricsPort := v; ContainerdSock := ContainerdSock cfg;
     Quota := Quota cfg; Namespace := Namespace cfg |}.

Definition set_DefaultSoft (cfg : Config) (v : string) : Config :=
  {| StateFilePath := StateFilePath cfg; Project := Project cfg;
     MetricsPort := MetricsPort cfg; ContainerdSock := ContainerdSock cfg;
     Quota := {| DefaultSoft := v; DefaultHard := DefaultHard (Quota cfg) |};
     Namespace := Namespace cfg |}.

Definition set_DefaultHard (cfg : Config) (v : string) : Config :=
  {| StateFilePath := StateFilePath cfg; Project := Project cfg;
     MetricsPort := MetricsPort cfg; ContainerdSock := ContainerdSock cfg;
     Quota := {| DefaultSoft := DefaultSoft (Quota cfg); DefaultHard := v |};
     Namespace := Namespace cfg |}.

Definition set_Namespace (cfg : Config) (v : string) : Config :=
  {| StateFilePath := StateFilePath cfg; Project := Project cfg;
     MetricsPort := MetricsPort cfg; ContainerdSock := ContainerdSock cfg;
     Quota := Quota cfg; Namespace := v |}.

Section WithWorld.
Context {World : Type} (ext : xfs.Externals World).
Context (decode : list Byte.byte → Config → Config * option error).

Definition LoadConfig (filePath : string) (w : World)
  : option Config * option error * World :=
  let '(data, err, w1) := xfs.os_ReadFile ext filePath w in
  match err with
  | Some _ => (None, Some (Errorf "failed to read config file: %v"), w1)
  | None =>
      let '(cfg, err) := decode data Config_zero in
      match err with
      | Some _ => (None, Some (Errorf "failed to parse config file: %v"), w1)
      | None =>
          if String.eqb (StateFilePath cfg) "" then
            (None, Some (Errorf "state_file_path is required"), w1)
          else if (IDMin (Project cfg) =? 0) || (IDMax (Project cfg) =? 0)
                  || (IDMin (Project cfg) >=? IDMax (Project cfg)) then
            (None,
             Some (Errorf "invalid project.id range: min=%d, max=%d"), w1)
          else if String.eqb (ContainerdSock cfg) "" then
            (None, Some (Errorf "containerd_sock is required"), w1)
          else
            let cfg := if String.eqb (MetricsPort cfg) ""
                       then set_MetricsPort cfg "" else cfg in
            let cfg := if String.eqb (DefaultSoft (Quota cfg)) ""
                       then set_DefaultSoft cfg "10g" else cfg in
            let cfg := if String.eqb (DefaultHard (Quota cfg)) ""
                       then set_DefaultHard cfg "10g" else cfg in
            let cfg := if String.eqb (Namespace cfg) ""
                       then set_Namespace cfg "default" else cfg in
            (Some cfg, None, w1)
      end
  end.

End WithWorld.

End config_file.

Module config_flat_file.
Import config_flat.

Definition Config_zero : Config :=
  {| StateFilePath := ""; ProjectIDMin := 0; ProjectIDMax := 0;
     MetricsPort := ""; ContainerdSock := "";
     DefaultQuotaSoft := ""; DefaultQuotaHard := ""; Namespace := "" |}.

Definition set_Namespace (cfg : Config) (v : string) : Config :=
  {| StateFilePath := StateFilePath cfg;
     ProjectIDMin := ProjectIDMin cfg; ProjectIDMax := ProjectIDMax cfg;
     MetricsPort := MetricsPort cfg; ContainerdSock := ContainerdSock cfg;
     DefaultQuotaSoft := DefaultQuotaSoft cfg;
     DefaultQuotaHard := DefaultQuotaHard cfg; Namespace := v |}.

Section WithWorld.
Context {World : Type} (ext : xfs.Externals World).
Context (decode : list Byte.byte → Config → Config * option error).

Definition LoadConfig (filePath : string) (w : World)
  : option Config * option error * World :=
  let '(data, err, w1) := xfs.os_ReadFile ext filePath w in
  match err with
  | Some _ => (None, Some (Errorf "failed to read config file: %v"), w1)
  | None =>
      let '(cfg, err) := decode data Config_zero in
      match err with
      | Some _ => (None, Some (Errorf "failed to parse config file: %v"), w1)
      | None =>
          if String.eqb (StateFilePath cfg) "" then
            (None, Some (Errorf "state_file_path is required"), w1)
          else if (ProjectIDMin cfg =? 0) || (ProjectIDMax cfg =? 0)
                  || (ProjectIDMin cfg >=? ProjectIDMax cfg) then
            (None,
             Some (Errorf "invalid project_id range: min=%d, max=%d"), w1)
          else if String.eqb (MetricsPort cfg) "" then
            (None, Some (Errorf "metrics_port is required"), w1)
          else if String.eqb (ContainerdSock cfg) "" then
            (None, Some (Errorf "containerd_sock is required"), w1)
          else if String.eqb (DefaultQuotaSoft cfg) ""
                  || String.eqb (DefaultQuotaHard cfg) "" then
            (None,
             Some (Errorf
               "default_quota_soft and default_quota_hard are required"), w1)
          else
            let cfg := if String.eqb (Namespace cfg) ""
                       then set_Namespace cfg "default" else cfg in
            (Some cfg, None, w1)
      end
  end.

End WithWorld.

End config_flat_file.

(** ** Start-up and the event loop of package handler
    (pkg/handler/handle.go)

    [NewRFSQuota] returns the configuration and the machine state that the
    methods share.  In [startEventListener] the connection to containerd
    ([containerd.New]) is the parameter [connect], and what the [select] of
    the loop receives, in the order in which it receives it, is a list:
    the loop returns at an error of the subscription or at cancellation,
    and is left waiting ([None]) when the list ends before that. *)

Inductive Received : Type :=
| RecvEnvelope (envelope : Envelope)
| RecvErr (err : error)
| RecvDone.

Module handler_run.
Import engine.

Section WithWorld.
Context {World : Type} (ext : xfs.Externals World).
Context (decode : list Byte.byte → config.Config
                  → config.Config * option error).
Context (connect : string → World → option error * World).

Definition NewRFSQuota (configPath : string) (w : World)
  : option (config.Config * Machine World) * option error * World :=
  let '(cfg, err, w1) := config_file.LoadConfig ext decode configPath w in
  match cfg, err with
  | Some cfg, None =>
      let '(stateManager, err, w2) :=
        xfs.NewStateManager ext (config.StateFilePath cfg) w1 in
      match stateManager, err with
      | Some stateManager, None =>
          let projectIDPool :=
            xfs.NewProjectIDPool (config.IDMin (config.Project cfg))
                                 (config.IDMax (config.Project cfg)) in
          (Some (cfg, {| stateManager := stateManager;
                         projectIDPool := projectIDPool;
                         world := w2;
                         trace := [] |}),
           None, w2)
      | _, _ => (None, err, w2)
      end
  | _, _ => (None, err, w1)
  end.

(** The loop of [startEventListener]. *)
Fixpoint listen (fuel : nat) (cfg : config.Config) (received : list Received)
  : Eng World (option (option error)) :=
  match received with
  | [] => ret None
  | RecvEnvelope envelope :: received' =>
      handler.handleEvent ext fuel cfg envelope ;;
      listen fuel cfg received'
  | RecvErr err :: _ => ret (Some (Some err))
  | RecvDone :: _ => ret (Some None)
  end.

Definition startEventListener (fuel : nat) (cfg : config.Config)
    (received : list Received) : Eng World (option (option error)) :=
  let* err := on_world (connect (config.ContainerdSock cfg)) in
  match err with
  | Some _ => ret (Some err)
  | None =>
      handler.syncState ext fuel cfg ;;
      listen fuel cfg received
  end.

End WithWorld.

End handler_run.

(** ** The other [GetSnapshotUpperdir] (test/xfs/quotatmp.go)

    The printing of the [lowerdir=] option is left out. *)

Module test_xfs.

Section WithWorld.
Context {World : Type} (ext : xfs.Externals World).

Definition scan_options (upperDir : string) (opts : list string) : string :=
  fold_left
    (λ upperDir opt,
       if HasPrefix opt "upperdir=" then TrimPrefix opt "upperdir="
       else upperDir)
    opts upperDir.

Definition scan_mounts (mounts : list Mount) : string :=
  fold_left
    (λ upperDir mount,
       if String.eqb (Mount_Type mount) "overlay"
       then scan_options upperDir (Mount_Options mount)
       else upperDir)
    mounts "".

Definition GetSnapshotUpperdir (containerID : string) (w : World)
  : string * option error * World :=
  let '(err, w1) := xfs.client_LoadContainer ext containerID w in
  match err with
  | Some _ => ("", err, w1)
  | None =>
      let '(info, err, w2) := xfs.container_Info ext containerID w1 in
      match err with
      | Some _ => ("", err, w2)
      | None =>
          let '(mounts, err, w3) :=
            xfs.snapshotter_Mounts ext (Snapshotter info) (SnapshotKey info)
              w2 in
          match err with
          | Some _ => ("", err, w3)
          | None => (scan_mounts mounts, None, w3)
          end
      end
  end.

End WithWorld.

End test_xfs.

(** ** A world without state

    Externals over the one-point world, whose answers never change: one
    live container [c1] with its upperdir on disk and tagged [7], tools
    that succeed, and a file system with no file that accepts writes. *)

Module fake_static.

Definition externals : xfs.Externals unit :=
  {| xfs.os_ReadFile := λ _ w, ([], Some ErrNotExist, w);
     xfs.os_WriteFile := λ _ _ w, (None, w);
     xfs.os_MkdirAll := λ _ w, (None, w);
     xfs.os_Create := λ _ w, (None, w);
     xfs.os_Stat := λ _ w, (None, w);
     xfs.filepath_Dir := λ path, "/";
     xfs.json_MarshalIndent := fake.MarshalIndent;
     xfs.json_Unmarshal := fake.Unmarshal;
     xfs.exec_CombinedOutput :=
       λ name _ w,
         if String.eqb name "xfs_io" then ("projid = 7", None, w)
         else ("", None, w);
     xfs.regexp_FindStringSubmatch := λ _ _, ["projid = 7"; "7"];
     xfs.strconv_ParseUint := fake.ParseUint;
     xfs.client_Containers := λ w, (["c1"], None, w);
     xfs.client_LoadContainer := λ _ w, (None, w);
     xfs.container_Info :=
       λ containerID w,
         ({| Snapshotter := "overlayfs"; SnapshotKey := containerID |},
          None, w);
     xfs.snapshotter_Mounts :=
       λ _ _ w,
         ([{| Mount_Type := "overlay";
              Mount_Options := ["lowerdir=/l"; "upperdir=/var/lib/x/c1"] |}],
          None, w) |}.

End fake_static.

(** ** What a reconciliation pass keeps

    Nothing that was reserved or recorded is lost between two states:
    every identifier in use stays in use and every entry stays. *)
Definition keeps {World : Type} (s s' : engine.Machine World) : Prop :=
  (∀ j, xfs.used_at (engine.projectIDPool s) j = true →
        xfs.used_at (engine.projectIDPool s') j = true)
  ∧ (∀ c entry,
       xfs.Entries (xfs.state (engine.stateManager s)) !! c = Some entry →
       xfs.Entries (xfs.state (engine.stateManager s')) !! c = Some entry).

(** ** The in-memory world with a codec

    As [fake.externals], with a JSON codec that knows two documents: the
    store that holds the entry of [c1] with identifier [1], and the empty
    store.  Every other store fails to encode and every other document
    fails to decode. *)

Module fake_codec.

Definition doc_c1 : list Byte.byte := [Byte.x7b; Byte.x31; Byte.x7d].
Definition doc_empty : list Byte.byte := [Byte.x7b; Byte.x7d].

Definition is_doc (data doc : list Byte.byte) : bool :=
  bool_decide (Byte.to_N <$> data = Byte.to_N <$> doc).

Definition entries_c1 : gmap string xfs.Entry :=
  {[ "c1" := fake.entry_c1 1 ]}.

Definition holds_c1 (st : xfs.State) : bool :=
  match map_to_list (xfs.Entries st) with
  | [(containerID, entry)] =>
      String.eqb containerID "c1"
      && String.eqb (xfs.ContainerID entry) "c1"
      && (xfs.ProjectID entry =? 1)
      && String.eqb (xfs.Upperdir entry) "/var/lib/x/c1"
  | _ => false
  end.

Definition MarshalIndent (st : xfs.State) (pre indent : string)
  : list Byte.byte * option error :=
  if holds_c1 st then (doc_c1, None)
  else if (size (xfs.Entries st) =? 0)%nat then (doc_empty, None)
  else ([], Some (ErrExternal "unsupported value")).

Definition Unmarshal (data : list Byte.byte) (st : xfs.State)
  : xfs.State * option error :=
  if is_doc data doc_c1 then ({| xfs.Entries := entries_c1 |}, None)
  else if is_doc data doc_empty then (st, None)
  else (st, Some (ErrExternal "invalid character")).

Definition externals : xfs.Externals fake.World :=
  {| xfs.os_ReadFile := fake.ReadFile;
     xfs.os_WriteFile := fake.WriteFile;
     xfs.os_MkdirAll := λ _ w, (None, w);
     xfs.os_Create := fake.Create;
     xfs.os_Stat := fake.Stat;
     xfs.filepath_Dir := λ path, "/";
     xfs.json_MarshalIndent := MarshalIndent;
     xfs.json_Unmarshal := Unmarshal;
     xfs.exec_CombinedOutput := fake.CombinedOutput;
     xfs.regexp_FindStringSubmatch := fake.FindStringSubmatch;
     xfs.strconv_ParseUint := fake.ParseUint;
     xfs.client_Containers := λ w, (fst <$> fake.live w, None, w);
     xfs.client_LoadContainer := fake.LoadContainer;
     xfs.container_Info :=
       λ containerID w,
         ({| Snapshotter := "overlayfs"; SnapshotKey := containerID |},
          None, w);
     xfs.snapshotter_Mounts := fake.Mounts |}.

(** A configuration decoder that knows one document. *)
Definition decode_config (data : list Byte.byte) (cfg : config.Config)
  : config.Config * option error :=
  if is_doc data doc_empty then
    ({| config.StateFilePath := "/var/lib/quota/state.json";
        config.Project := {| config.IDMin := 1; config.IDMax := 10 |};
        config.MetricsPort := "";
        config.ContainerdSock := "/run/containerd/containerd.sock";
        config.Quota := {| config.DefaultSoft := "";
                           config.DefaultHard := "20g" |};
        config.Namespace := "" |}, None)
  else (cfg, Some (ErrExternal "invalid character")).


(** A world with the configuration file and, when [state] is given, the
    state file. *)
Definition world_files (state : option (list Byte.byte)) : fake.World :=
  fake.set_files (fake.world_c1 (Some 1))
    (match state with
     | Some data => {[ "/etc/containerd-quota/config.json" := doc_empty;
                       "/var/lib/quota/state.json" := data ]}
     | None => {[ "/etc/containerd-quota/config.json" := doc_empty ]}
     end).

End fake_codec.

(** Unfolding of the computations of [engine], leaving the functions of
    package xfs folded. *)
Ltac eng_unfold :=
  unfold engine.Allocate, engine.Release, engine.MarkUsed, engine.AddEntry,
    engine.RemoveEntry, engine.GetEntry, engine.SetProjectIDWithXFSQuota,
    engine.SetProjectQuotaWithXFSQuota, engine.GetProjectIDFromXFS,
    engine.GetSnapshotUpperdir, engine.Stat, engine.Containers,
    engine.record, engine.on_world, engine.on_pool, engine.on_stateManager,
    engine.at_index, index, engine.bind, engine.ret;
  cbn [nth_error engine.stateManager engine.projectIDPool engine.world
       engine.trace fst snd].

Ltac eng_trace := cbn [engine.trace]; rewrite <- ?app_assoc; cbn [app].

Ltac eng_rw H := rewrite H; eng_unfold.

(** * Properties *)

Section Pool.
Import xfs.

Lemma used_at_insert p id j :
  default false (<[id := true]> (used p) !! j) =
  if decide (id = j) then true else used_at p j.
Proof.
  unfold used_at. rewrite lookup_insert. by case_decide.
Qed.

Lemma used_at_delete p id j :
  default false (delete id (used p) !! j) =
  if decide (id = j) then false else used_at p j.
Proof.
  unfold used_at. rewrite lookup_delete. by case_decide.
Qed.

(** What the loop computes when the upper bound is not the largest
    [uint32]: the first free identifier at or after [id], or the error. *)
Lemma Allocate_loop_scan p : maxID p < max_uint32 →
  ∀ fuel id, 0 <= id →
    (Z.to_nat (maxID p + 1 - id) < fuel)%nat →
    (∃ k, id <= k <= maxID p ∧ used_at p k = false ∧
          (∀ j, id <= j < k → used_at p j = true) ∧
          Allocate_loop fuel p id =
            Some (k, None, set_used p (<[k := true]> (used p))))
    ∨ ((∀ j, id <= j <= maxID p → used_at p j = true) ∧
       Allocate_loop fuel p id =
         Some (0, Some (Errorf "no available project ID"), p)).
Proof.
  intros Hmax. unfold max_uint32 in Hmax.
  induction fuel as [|fuel IH]; intros id Hid Hfuel; [lia|].
  cbn [Allocate_loop].
  destruct (Z.leb_spec id (maxID p)) as [Hle|Hgt].
  - destruct (used_at p id) eqn:Hu; cbn [negb].
    + assert (Hw : wrap32 (id + 1) = id + 1).
      { unfold wrap32. apply Z.mod_small. lia. }
      rewrite Hw.
      destruct (IH (id + 1)) as [(k & Hk & Hfree & Hbelow & Heq)|[Hall Heq]];
        [lia|lia| |].
      * left. exists k. repeat split; try lia; try done.
        intros j Hj. destruct (decide (j = id)) as [->|]; [done|].
        apply Hbelow. lia.
      * right. split; [|done].
        intros j Hj. destruct (decide (j = id)) as [->|]; [done|].
        apply Hall. lia.
    + left. exists id. repeat split; try lia; try done.
  - right. split; [|done]. intros j Hj. lia.
Qed.

(** With enough fuel and an upper bound below the largest [uint32],
    [Allocate] returns the lowest free identifier of the range and marks
    it, or the error with the pool as it was. *)
Lemma Allocate_lowest_free p fuel :
  0 <= minID p → maxID p < max_uint32 → (range_fuel p <= fuel)%nat →
  (∃ k, minID p <= k <= maxID p ∧ used_at p k = false ∧
        (∀ j, minID p <= j < k → used_at p j = true) ∧
        Allocate fuel p = Some (k, None, MarkUsed p k))
  ∨ ((∀ j, minID p <= j <= maxID p → used_at p j = true) ∧
     Allocate fuel p =
       Some (0, Some (Errorf "no available project ID"), p)).
Proof.
  intros Hmin Hmax Hfuel. unfold Allocate, MarkUsed.
  apply Allocate_loop_scan; [done|done|].
  unfold range_fuel in Hfuel. lia.
Qed.

Lemma in_range_MarkUsed p id :
  in_range p → minID p <= id <= maxID p → in_range (MarkUsed p id).
Proof.
  intros Hp Hid j. unfold MarkUsed, used_at at 1. cbn.
  rewrite used_at_insert. case_decide; [intros _; subst; done|apply Hp].
Qed.

Lemma in_range_Release p id : in_range p → in_range (Release p id).
Proof.
  intros Hp j. unfold Release, used_at at 1. cbn.
  rewrite used_at_delete. case_decide; [done|apply Hp].
Qed.

Lemma apply_op_bounds fuel p op p' :
  apply_op fuel p op = Some p' → minID p' = minID p ∧ maxID p' = maxID p.
Proof.
  destruct op; cbn.
  - unfold Allocate. generalize (minID p) at 1. intros id.
    revert id. induction fuel as [|fuel IH]; intros id; cbn; [done|].
    destruct (id <=? maxID p); [|by intros [= <-]].
    destruct (negb (used_at p id)); [by intros [= <-]|]. apply IH.
  - by intros [= <-].
  - by intros [= <-].
Qed.

Lemma apply_op_in_range fuel p op :
  0 <= minID p → maxID p < max_uint32 → (range_fuel p <= fuel)%nat →
  in_range p →
  (∀ id, op = OpMarkUsed id → minID p <= id <= maxID p) →
  ∃ p', apply_op fuel p op = Some p' ∧ in_range p'.
Proof.
  intros Hmin Hmax Hfuel Hp Hop. destruct op as [|id|id]; cbn.
  - destruct (Allocate_lowest_free p fuel Hmin Hmax Hfuel)
      as [(k & Hk & _ & _ & ->)|[_ ->]].
    + eexists. split; [done|]. by apply in_range_MarkUsed.
    + by eexists.
  - eexists. split; [done|]. by apply in_range_Release.
  - eexists. split; [done|]. apply in_range_MarkUsed; [done|]. by apply Hop.
Qed.

(** The same scan on two pools that agree on which identifiers are in
    use returns the same identifier and the same error. *)
Lemma Allocate_loop_agree p q :
  maxID p = maxID q → (∀ j, used_at p j = used_at q j) →
  ∀ fuel id,
    (λ r, (r.1.1, r.1.2)) <$> Allocate_loop fuel p id =
    (λ r, (r.1.1, r.1.2)) <$> Allocate_loop fuel q id.
Proof.
  intros Hmax Hused. induction fuel as [|fuel IH]; intros id; cbn; [done|].
  rewrite <- Hmax, <- Hused.
  destruct (id <=? maxID p); [|done].
  destruct (negb (used_at p id)); [done|]. apply IH.
Qed.

Lemma Allocate_loop_found fuel p : ∀ id k p',
  Allocate_loop fuel p id = Some (k, None, p') →
  used_at p k = false ∧ p' = MarkUsed p k.
Proof.
  induction fuel as [|fuel IH]; intros id k p'; cbn; [done|].
  destruct (id <=? maxID p); [|done].
  destruct (used_at p id) eqn:Hu; cbn.
  - apply IH.
  - by intros [= <- <-].
Qed.

(** An identifier handed out by [Allocate] and released at once is the
    one the next [Allocate] hands out. *)
Lemma Allocate_Release_Allocate fuel p k p' :
  Allocate fuel p = Some (k, None, p') →
  used_at (Release p' k) k = false ∧
  Allocate fuel (Release p' k) = Some (k, None, MarkUsed (Release p' k) k).
Proof.
  intros Halloc.
  destruct (Allocate_loop_found _ _ _ _ _ Halloc) as [Hfree ->].
  assert (Hsame : ∀ j, used_at p j = used_at (Release (MarkUsed p k) k) j).
  { intros j. unfold Release, MarkUsed, used_at. cbn.
    rewrite lookup_delete, lookup_insert.
    case_decide; [subst; apply Hfree|done]. }
  split; [by rewrite <- Hsame|].
  pose proof (Allocate_loop_agree p (Release (MarkUsed p k) k) eq_refl
                Hsame fuel (minID p)) as Hagree.
  unfold Allocate in *. rewrite Halloc in Hagree. cbn in Hagree.
  change (minID (Release (MarkUsed p k) k)) with (minID p).
  destruct (Allocate_loop fuel (Release (MarkUsed p k) k) (minID p))
    as [[[k' err'] q]|] eqn:Hq; [|done].
  cbn in Hagree. injection Hagree as <- <-.
  by destruct (Allocate_loop_found _ _ _ _ _ Hq) as [_ ->].
Qed.

(** C6, the claim as stated fails: [MarkUsed] stores any identifier, so
    one call with [0] on a fresh pool over [1, 10] puts [0] in the in-use
    set. *)
Lemma C6_counterexample :
  ¬ (∀ p, run_ops 1 (NewProjectIDPool 1 10) [OpMarkUsed 0] = Some p →
          in_range p).
Proof.
  intros Hclaim.
  specialize (Hclaim _ eq_refl 0 eq_refl). cbn in Hclaim. lia.
Qed.

(** C6 (amended): starting from a freshly constructed pool over
    [minID, maxID] with [maxID] below the largest [uint32], after every
    finite sequence of Allocate, Release and MarkUsed calls in which each
    MarkUsed argument lies in [minID, maxID] (the Release arguments are
    arbitrary), every call has returned and the set of identifiers marked
    in-use is a subset of [minID, maxID]. *)
Theorem C6_in_use_within_range (lo hi : Z) (ops : list PoolOp) (fuel : nat) :
  0 <= lo → hi < max_uint32 →
  (∀ id, In (OpMarkUsed id) ops → lo <= id <= hi) →
  (Z.to_nat (hi - lo) + 2 <= fuel)%nat →
  ∃ p, run_ops fuel (NewProjectIDPool lo hi) ops = Some p ∧ in_range p.
Proof.
  intros Hlo Hhi Hops Hfuel.
  assert (Hgen : ∀ p, minID p = lo → maxID p = hi → in_range p →
            ∃ p', run_ops fuel p ops = Some p' ∧ in_range p').
  { induction ops as [|op ops IH]; intros p Hmin Hmax Hp; cbn.
    - by exists p.
    - destruct (apply_op_in_range fuel p op) as (p1 & Hp1 & Hin1);
        [lia|lia|unfold range_fuel; lia|done| |].
      + intros id ->. rewrite Hmin, Hmax. apply Hops. by left.
      + rewrite Hp1.
        destruct (apply_op_bounds _ _ _ _ Hp1) as [Hmin1 Hmax1].
        apply IH; [|congruence|congruence|done].
        intros id Hid. apply Hops. by right. }
  apply Hgen; [done|done|]. intros id. by cbn.
Qed.

(** C7 at the failing input: on the pool over the last two [uint32]
    values, two allocations fill the range, and the third call does not
    fail: [id++] wraps to [0], which is at most [maxID], so the loop goes
    on and [0], outside the range, is returned and marked in-use. *)
Theorem C7_Allocate_wraps_at_max_uint32 :
  let p0 := NewProjectIDPool 4294967294 4294967295 in
  let full := MarkUsed (MarkUsed p0 4294967294) 4294967295 in
  run_ops 3 p0 [OpAllocate; OpAllocate] = Some full
  ∧ used_at full 4294967294 = true ∧ used_at full 4294967295 = true
  ∧ ∀ n, Allocate (3 + n) full = Some (0, None, MarkUsed full 0).
Proof.
  cbn zeta. repeat split; by vm_compute.
Qed.

End Pool.

Section StateStore.
Context {World : Type} (ext : xfs.Externals World).
Import xfs.

(** C10: constructing the state manager over a state file that exists
    and is zero-length succeeds and yields an empty store, whatever the
    JSON decoder would make of an empty document: [load] returns before
    decoding. *)
Theorem C10_zero_length_state_file (path : string) (w w' : World) :
  os_ReadFile ext path w = ([], None, w') →
  NewStateManager ext path w =
    (Some {| filePath := path; state := {| Entries := ∅ |} |}, None, w').
Proof.
  intros Hread. unfold NewStateManager, load. cbn. by rewrite Hread.
Qed.

(** A file with content that the decoder rejects is an error of the
    construction. *)
Lemma NewStateManager_malformed path w w' b data st e :
  os_ReadFile ext path w = (b :: data, None, w') →
  json_Unmarshal ext (b :: data) {| Entries := ∅ |} = (st, Some e) →
  e ≠ ErrNotExist →
  NewStateManager ext path w = (None, Some e, w').
Proof.
  intros Hread Hjson He. unfold NewStateManager, load. cbn.
  rewrite Hread. cbn. rewrite Hjson. by destruct e.
Qed.

(** C2 (amended): for every AddEntry call whose durable write fails, the
    call returns that failure and the in-memory map is the map before the
    call with the entry inserted or replaced: the entry stays visible in
    memory, and the map differs from its value before the call unless it
    already held this very entry. *)
Theorem C2_failed_write_keeps_entry (containerID : string) (projectID : Z)
    (upperdir : string) (m : StateManager) (w w' : World)
    (data : list Byte.byte) (e : error) :
  let entry := {| ContainerID := containerID; ProjectID := projectID;
                  Upperdir := upperdir |} in
  let m' := set_state m
              {| Entries := <[containerID := entry]> (Entries (state m)) |}
  in
  json_MarshalIndent ext (state m') "" "  " = (data, None) →
  os_WriteFile ext (filePath m) data w = (Some e, w') →
  AddEntry ext containerID projectID upperdir m w = (Some e, m', w')
  ∧ GetEntry containerID m' = (entry, true)
  ∧ (Entries (state m) !! containerID ≠ Some entry → state m' ≠ state m).
Proof.
  intros entry m' Hjson Hwrite. repeat split.
  - unfold AddEntry, save. fold entry. fold m'. rewrite Hjson.
    cbn. by rewrite Hwrite.
  - unfold GetEntry. cbn. by rewrite lookup_insert_eq.
  - intros Hold Heq. apply Hold. rewrite <- Heq. cbn.
    by rewrite lookup_insert_eq.
Qed.

End StateStore.

(** C10 on the in-memory world: the state file exists and is empty, and
    the decoder rejects the empty document. *)
Lemma C10_zero_length_state_file_witness :
  xfs.json_Unmarshal fake.externals [] {| xfs.Entries := ∅ |} =
    ({| xfs.Entries := ∅ |},
     Some (ErrExternal "unexpected end of JSON input"))
  ∧ xfs.NewStateManager fake.externals "/var/lib/quota/state.json"
      (fake.world_c1 None) =
    (Some (fake.manager ∅), None, fake.world_c1 None).
Proof.
  split; [reflexivity|].
  apply (C10_zero_length_state_file fake.externals). reflexivity.
Defined.

(** C2, the claim as stated fails: on a file system that refuses the
    write, AddEntry on the empty store returns the failure, and the entry
    it inserted is still in the in-memory map. *)
Lemma C2_counterexample :
  ¬ (∀ err m' w',
       xfs.AddEntry fake.externals "c1" 7 "/var/lib/x/c1" (fake.manager ∅)
         (fake.with_failures (fake.world_c1 None) true false false)
       = (err, m', w') →
       err ≠ None ∧ xfs.state m' = xfs.state (fake.manager ∅)).
Proof.
  intros Hclaim.
  destruct (Hclaim _ _ _ eq_refl) as [_ Heq].
  apply (f_equal (λ st, xfs.Entries st !! "c1")) in Heq.
  vm_compute in Heq. discriminate Heq.
Qed.

Lemma C2_failed_write_keeps_entry_witness :
  let w := fake.with_failures (fake.world_c1 None) true false false in
  let m' := fake.manager {[ "c1" := fake.entry_c1 7 ]} in
  xfs.AddEntry fake.externals "c1" 7 "/var/lib/x/c1" (fake.manager ∅) w =
    (Some (ErrExternal "read-only file system"), m', w)
  ∧ xfs.GetEntry "c1" m' = (fake.entry_c1 7, true)
  ∧ (xfs.Entries (xfs.state (fake.manager ∅)) !! "c1"
       ≠ Some (fake.entry_c1 7) →
     xfs.state m' ≠ xfs.state (fake.manager ∅)).
Proof.
  apply (C2_failed_write_keeps_entry fake.externals "c1" 7 "/var/lib/x/c1"
           (fake.manager ∅) _ _ [Byte.x7b; Byte.x7d]); reflexivity.
Defined.

Section Creation.
Context {World : Type} (ext : xfs.Externals World).
Import engine.

(** C8: in the creation sequence of [handleTaskCreate], if SetLimit fails
    after Tag succeeded, the handler returns that error, the identifier
    allocated for the attempt is released (it is not in use and the next
    Allocate hands it out again), AddEntry is not called and the state
    manager is as before. *)
Theorem C8_SetLimit_failure_releases_identifier
    (fuel : nat) (cfg : config.Config) (e : TaskCreate) (s : Machine World)
    (rootfs0 : Mount) (rootfs : list Mount)
    (option0 option1 : string) (options : list string)
    (id : Z) (p : xfs.ProjectIDPool) (w1 w2 : World) (err : error) :
  let upperdir := TrimPrefix option1 "upperdir=" in
  let soft := config.DefaultSoft (config.Quota cfg) in
  TaskCreate_Rootfs e = rootfs0 :: rootfs →
  Mount_Options rootfs0 = option0 :: option1 :: options →
  xfs.Allocate fuel (projectIDPool s) = Some (id, None, p) →
  xfs.SetProjectIDWithXFSQuota ext upperdir id (world s) = (None, w1) →
  xfs.SetProjectQuotaWithXFSQuota ext id soft soft w1 = (Some err, w2) →
  ∃ s', handler.handleTaskCreate ext fuel cfg e s = Ret (Some err) s'
    ∧ xfs.used_at (projectIDPool s') id = false
    ∧ xfs.Allocate fuel (projectIDPool s') =
        Some (id, None, xfs.MarkUsed (projectIDPool s') id)
    ∧ stateManager s' = stateManager s
    ∧ trace s' =
        trace s ++ [CallAllocate; CallSetProjectID upperdir id;
                    CallSetProjectQuota id soft soft; CallRelease id].
Proof.
  intros upperdir soft Hrootfs Hoptions Halloc Htag Hlimit.
  unfold handler.handleTaskCreate. rewrite Hrootfs. eng_unfold.
  rewrite Hoptions. eng_unfold. rewrite Halloc. eng_unfold.
  fold upperdir. rewrite Htag. eng_unfold. fold soft. rewrite Hlimit.
  eng_unfold.
  eexists. split; [reflexivity|]. eng_trace.
  destruct (Allocate_Release_Allocate _ _ _ _ Halloc) as [Hfree Hnext].
  by repeat split.
Qed.

(** The limits that the three creation sequences pass to
    [SetProjectQuotaWithXFSQuota] once Allocate and Tag have succeeded:
    [handleTaskCreate] passes the soft limit twice, [restoreQuota] and
    the program in test/main.go pass the soft and the hard limit. *)
Lemma handleTaskCreate_limits
    (fuel : nat) (cfg : config.Config) (e : TaskCreate) (s : Machine World)
    (rootfs0 : Mount) (rootfs : list Mount)
    (option0 option1 : string) (options : list string)
    (id : Z) (p : xfs.ProjectIDPool) (w1 : World) :
  let upperdir := TrimPrefix option1 "upperdir=" in
  let soft := config.DefaultSoft (config.Quota cfg) in
  TaskCreate_Rootfs e = rootfs0 :: rootfs →
  Mount_Options rootfs0 = option0 :: option1 :: options →
  xfs.Allocate fuel (projectIDPool s) = Some (id, None, p) →
  xfs.SetProjectIDWithXFSQuota ext upperdir id (world s) = (None, w1) →
  ∃ r s' rest, handler.handleTaskCreate ext fuel cfg e s = Ret r s'
    ∧ trace s' =
        trace s ++ [CallAllocate; CallSetProjectID upperdir id;
                    CallSetProjectQuota id soft soft] ++ rest.
Proof.
  intros upperdir soft Hrootfs Hoptions Halloc Htag.
  unfold handler.handleTaskCreate. eng_rw Hrootfs. eng_rw Hoptions.
  eng_rw Halloc. fold upperdir. eng_rw Htag. fold soft.
  destruct (xfs.SetProjectQuotaWithXFSQuota ext id soft soft w1)
    as [[err|] w2]; eng_unfold.
  - do 3 eexists. split; [reflexivity|]. by eng_trace.
  - destruct (xfs.AddEntry ext _ id upperdir (stateManager s) w2)
      as [[[err|] m] w3]; eng_unfold;
      (do 3 eexists; split; [reflexivity|]; by eng_trace).
Qed.

Lemma restoreQuota_limits
    (fuel : nat) (cfg : config.Config) (containerID upperdir : string)
    (s : Machine World) (id : Z) (p : xfs.ProjectIDPool) (w1 : World) :
  let soft := config.DefaultSoft (config.Quota cfg) in
  let hard := config.DefaultHard (config.Quota cfg) in
  xfs.Allocate fuel (projectIDPool s) = Some (id, None, p) →
  xfs.SetProjectIDWithXFSQuota ext upperdir id (world s) = (None, w1) →
  ∃ r s' rest,
    handler.restoreQuota ext fuel cfg containerID upperdir s = Ret r s'
    ∧ trace s' =
        trace s ++ [CallAllocate; CallSetProjectID upperdir id;
                    CallSetProjectQuota id soft hard] ++ rest.
Proof.
  intros soft hard Halloc Htag.
  unfold handler.restoreQuota. eng_unfold. eng_rw Halloc. eng_rw Htag.
  fold soft. fold hard.
  destruct (xfs.SetProjectQuotaWithXFSQuota ext id soft hard w1)
    as [[err|] w2]; eng_unfold.
  - do 3 eexists. split; [reflexivity|]. by eng_trace.
  - destruct (xfs.AddEntry ext containerID id upperdir (stateManager s) w2)
      as [[err m] w3].
    do 3 eexists. split; [reflexivity|]. by eng_trace.
Qed.

Lemma runEventListener_TaskCreate_limits
    (fuel : nat) (cfg : config_flat.Config) (e : TaskCreate)
    (s : Machine World) (rootfs0 : Mount) (rootfs : list Mount)
    (option0 option1 : string) (options : list string)
    (id : Z) (p : xfs.ProjectIDPool) (w1 : World) :
  let upperdir := TrimPrefix option1 "upperdir=" in
  let soft := config_flat.DefaultQuotaSoft cfg in
  let hard := config_flat.DefaultQuotaHard cfg in
  TaskCreate_Rootfs e = rootfs0 :: rootfs →
  Mount_Options rootfs0 = option0 :: option1 :: options →
  xfs.Allocate fuel (projectIDPool s) = Some (id, None, p) →
  xfs.SetProjectIDWithXFSQuota ext upperdir id (world s) = (None, w1) →
  ∃ s' rest, test_main.runEventListener_TaskCreate ext fuel cfg e s = Ret tt s'
    ∧ trace s' =
        trace s ++ [CallAllocate; CallSetProjectID upperdir id;
                    CallSetProjectQuota id soft hard] ++ rest.
Proof.
  intros upperdir soft hard Hrootfs Hoptions Halloc Htag.
  unfold test_main.runEventListener_TaskCreate. eng_rw Hrootfs.
  eng_rw Hoptions. eng_rw Halloc. fold upperdir. eng_rw Htag.
  fold soft. fold hard.
  destruct (xfs.SetProjectQuotaWithXFSQuota ext id soft hard w1)
    as [[err|] w2]; eng_unfold.
  - do 2 eexists. split; [reflexivity|]. by eng_trace.
  - destruct (xfs.AddEntry ext _ id upperdir (stateManager s) w2)
      as [[err m] w3].
    do 2 eexists. split; [reflexivity|]. by eng_trace.
Qed.

(** What the creation sequences do with the identifier when the
    persistence step fails after allocation and enforcement succeeded:
    [handleTaskCreate] releases it, [restoreQuota] and the program in
    test/main.go leave the pool as Allocate made it. *)
Lemma handleTaskCreate_persistence_failure
    (fuel : nat) (cfg : config.Config) (e : TaskCreate) (s : Machine World)
    (rootfs0 : Mount) (rootfs : list Mount)
    (option0 option1 : string) (options : list string)
    (id : Z) (p : xfs.ProjectIDPool) (w1 w2 w3 : World)
    (err : error) (m : xfs.StateManager) :
  let upperdir := TrimPrefix option1 "upperdir=" in
  let soft := config.DefaultSoft (config.Quota cfg) in
  TaskCreate_Rootfs e = rootfs0 :: rootfs →
  Mount_Options rootfs0 = option0 :: option1 :: options →
  xfs.Allocate fuel (projectIDPool s) = Some (id, None, p) →
  xfs.SetProjectIDWithXFSQuota ext upperdir id (world s) = (None, w1) →
  xfs.SetProjectQuotaWithXFSQuota ext id soft soft w1 = (None, w2) →
  xfs.AddEntry ext (TaskCreate_ContainerID e) id upperdir
    (stateManager s) w2 = (Some err, m, w3) →
  ∃ s', handler.handleTaskCreate ext fuel cfg e s = Ret (Some err) s'
    ∧ projectIDPool s' = xfs.Release p id
    ∧ xfs.used_at (projectIDPool s') id = false.
Proof.
  intros upperdir soft Hrootfs Hoptions Halloc Htag Hlimit Hadd.
  unfold handler.handleTaskCreate. eng_rw Hrootfs. eng_rw Hoptions.
  eng_rw Halloc. fold upperdir. eng_rw Htag. fold soft. eng_rw Hlimit.
  eng_rw Hadd. eexists. split; [reflexivity|]. cbn. split; [done|].
  apply (Allocate_Release_Allocate _ _ _ _ Halloc).
Qed.

Lemma restoreQuota_persistence_failure
    (fuel : nat) (cfg : config.Config) (containerID upperdir : string)
    (s : Machine World) (id : Z) (p : xfs.ProjectIDPool) (w1 w2 w3 : World)
    (err : error) (m : xfs.StateManager) :
  let soft := config.DefaultSoft (config.Quota cfg) in
  let hard := config.DefaultHard (config.Quota cfg) in
  xfs.Allocate fuel (projectIDPool s) = Some (id, None, p) →
  xfs.SetProjectIDWithXFSQuota ext upperdir id (world s) = (None, w1) →
  xfs.SetProjectQuotaWithXFSQuota ext id soft hard w1 = (None, w2) →
  xfs.AddEntry ext containerID id upperdir (stateManager s) w2
    = (Some err, m, w3) →
  ∃ s', handler.restoreQuota ext fuel cfg containerID upperdir s
          = Ret (Some err) s'
    ∧ projectIDPool s' = p
    ∧ xfs.used_at (projectIDPool s') id = true.
Proof.
  intros soft hard Halloc Htag Hlimit Hadd.
  unfold handler.restoreQuota. eng_unfold. eng_rw Halloc. eng_rw Htag.
  fold soft. fold hard. eng_rw Hlimit. eng_rw Hadd.
  eexists. split; [reflexivity|]. cbn. split; [done|].
  destruct (Allocate_loop_found _ _ _ _ _ Halloc) as [_ ->].
  unfold xfs.MarkUsed, xfs.used_at. cbn. by rewrite lookup_insert_eq.
Qed.

Lemma runEventListener_TaskCreate_persistence_failure
    (fuel : nat) (cfg : config_flat.Config) (e : TaskCreate)
    (s : Machine World) (rootfs0 : Mount) (rootfs : list Mount)
    (option0 option1 : string) (options : list string)
    (id : Z) (p : xfs.ProjectIDPool) (w1 w2 w3 : World)
    (err : error) (m : xfs.StateManager) :
  let upperdir := TrimPrefix option1 "upperdir=" in
  let soft := config_flat.DefaultQuotaSoft cfg in
  let hard := config_flat.DefaultQuotaHard cfg in
  TaskCreate_Rootfs e = rootfs0 :: rootfs →
  Mount_Options rootfs0 = option0 :: option1 :: options →
  xfs.Allocate fuel (projectIDPool s) = Some (id, None, p) →
  xfs.SetProjectIDWithXFSQuota ext upperdir id (world s) = (None, w1) →
  xfs.SetProjectQuotaWithXFSQuota ext id soft hard w1 = (None, w2) →
  xfs.AddEntry ext (TaskCreate_ContainerID e) id upperdir
    (stateManager s) w2 = (Some err, m, w3) →
  ∃ s', test_main.runEventListener_TaskCreate ext fuel cfg e s = Ret tt s'
    ∧ projectIDPool s' = p
    ∧ xfs.used_at (projectIDPool s') id = true.
Proof.
  intros upperdir soft hard Hrootfs Hoptions Halloc Htag Hlimit Hadd.
  unfold test_main.runEventListener_TaskCreate. eng_rw Hrootfs.
  eng_rw Hoptions. eng_rw Halloc. fold upperdir. eng_rw Htag.
  fold soft. fold hard. eng_rw Hlimit. eng_rw Hadd.
  eexists. split; [reflexivity|]. cbn. split; [done|].
  destruct (Allocate_loop_found _ _ _ _ _ Halloc) as [_ ->].
  unfold xfs.MarkUsed, xfs.used_at. cbn. by rewrite lookup_insert_eq.
Qed.

End Creation.

Section Deletion.
Context {World : Type} (ext : xfs.Externals World).
Import engine.

(** C5 (amended): in the deletion sequence, when the storage path exists
    on disk and the read-back off the filesystem succeeds, the identifier
    to clear is the one read back, and the entry of the state manager
    only cross-checks it: when an entry exists, the identifier read back
    is not zero and differs from the recorded one, the handler returns an
    error and nothing is cleared, removed or released; otherwise
    enforcement is cleared for the identifier read back (which is the
    recorded one whenever an entry exists and the identifier read back
    is not zero). *)
Theorem C5_read_back_identifier_is_cleared (e : TaskDelete)
    (s : Machine World) (upperdir : string) (id : Z) (w1 w2 w3 : World) :
  let containerID := TaskDelete_ContainerID e in
  let recorded := xfs.Entries (xfs.state (stateManager s)) !! containerID in
  let calls := [CallGetSnapshotUpperdir containerID; CallStat upperdir;
                CallGetProjectIDFromXFS upperdir; CallGetEntry containerID]
  in
  xfs.GetSnapshotUpperdir ext containerID (world s) = (upperdir, None, w1) →
  xfs.os_Stat ext upperdir w1 = (None, w2) →
  xfs.GetProjectIDFromXFS ext upperdir w2 = (id, None, w3) →
  (∀ entry, recorded = Some entry → id ≠ 0 → xfs.ProjectID entry ≠ id →
     handler.handleTaskDelete ext e s =
       Ret (Some (Errorf
              "containereId %v, wrong projied-> xfs: %v, stateManager: %v"))
           {| stateManager := stateManager s;
              projectIDPool := projectIDPool s;
              world := w3;
              trace := trace s ++ calls |})
  ∧ ((∀ entry, recorded = Some entry →
               id = 0 ∨ xfs.ProjectID entry = id) →
     ∃ r s' rest, handler.handleTaskDelete ext e s = Ret r s'
       ∧ trace s' =
           trace s ++ calls ++ CallSetProjectQuota id "0" "0" :: rest).
Proof.
  intros containerID recorded calls Hupper Hstat Hread.
  unfold handler.handleTaskDelete, handler.GetProjectID. eng_unfold.
  fold containerID. eng_rw Hupper. eng_rw Hstat. eng_rw Hread.
  unfold xfs.GetEntry. cbn [engine.stateManager]. fold recorded. split.
  - intros entry -> Hid Hne. cbn.
    destruct (Z.eqb_spec id 0) as [|_]; [done|].
    destruct (Z.eqb_spec (xfs.ProjectID entry) id) as [|_]; [done|].
    cbn. by rewrite <- !app_assoc.
  - intros Hok.
    assert (Hpass :
      ∀ entry, recorded = Some entry →
        negb (id =? 0) && negb (xfs.ProjectID entry =? id) && true = false).
    { intros entry Hentry. destruct (Hok entry Hentry) as [->| ->].
      - done.
      - rewrite Z.eqb_refl. by destruct (id =? 0). }
    destruct recorded as [entry|]; cbn;
      [rewrite (Hpass entry eq_refl)|rewrite andb_false_r]; eng_unfold;
      (destruct (xfs.SetProjectQuotaWithXFSQuota ext id "0" "0" w3)
         as [[err|] w4]; eng_unfold;
       [do 3 eexists; split; [reflexivity|]; by eng_trace|];
       destruct (xfs.RemoveEntry ext containerID (stateManager s) w4)
         as [[[err|] m] w5]; eng_unfold;
       do 3 eexists; (split; [reflexivity|]); by eng_trace).
Qed.

(** What the two deletion sequences do when clearing enforcement fails:
    [handleTaskDelete] returns the error with the state manager and the
    pool as they were; the program in test/main.go goes on, removes the
    entry and releases the identifier. *)
Lemma handleTaskDelete_clearing_failure (e : TaskDelete)
    (s : Machine World) (upperdir : string) (entry : xfs.Entry)
    (w1 w2 w3 w4 : World) (err : error) :
  let containerID := TaskDelete_ContainerID e in
  let id := xfs.ProjectID entry in
  xfs.GetSnapshotUpperdir ext containerID (world s) = (upperdir, None, w1) →
  xfs.os_Stat ext upperdir w1 = (None, w2) →
  xfs.GetProjectIDFromXFS ext upperdir w2 = (id, None, w3) →
  xfs.Entries (xfs.state (stateManager s)) !! containerID = Some entry →
  xfs.SetProjectQuotaWithXFSQuota ext id "0" "0" w3 = (Some err, w4) →
  ∃ s', handler.handleTaskDelete ext e s = Ret (Some err) s'
    ∧ stateManager s' = stateManager s
    ∧ projectIDPool s' = projectIDPool s.
Proof.
  intros containerID id Hupper Hstat Hread Hentry Hclear.
  unfold handler.handleTaskDelete, handler.GetProjectID. eng_unfold.
  fold containerID. eng_rw Hupper. eng_rw Hstat. eng_rw Hread.
  unfold xfs.GetEntry. cbn [engine.stateManager]. rewrite Hentry. cbn.
  fold id. rewrite Z.eqb_refl, andb_false_r. cbn. eng_rw Hclear.
  by eexists.
Qed.

Lemma runEventListener_TaskDelete_clearing_failure (e : TaskDelete)
    (s : Machine World) (upperdir : string) (entry : xfs.Entry)
    (w1 w2 w3 w4 : World) (err : error) :
  let containerID := TaskDelete_ContainerID e in
  let id := xfs.ProjectID entry in
  xfs.GetSnapshotUpperdir ext containerID (world s) = (upperdir, None, w1) →
  xfs.os_Stat ext upperdir w1 = (None, w2) →
  xfs.GetProjectIDFromXFS ext upperdir w2 = (id, None, w3) →
  xfs.Entries (xfs.state (stateManager s)) !! containerID = Some entry →
  xfs.SetProjectQuotaWithXFSQuota ext id "0" "0" w3 = (Some err, w4) →
  ∃ s', test_main.runEventListener_TaskDelete ext e s = Ret tt s'
    ∧ xfs.Entries (xfs.state (stateManager s')) !! containerID = None
    ∧ xfs.used_at (projectIDPool s') id = false
    ∧ trace s' =
        trace s ++ [CallGetSnapshotUpperdir containerID; CallStat upperdir;
                    CallGetProjectIDFromXFS upperdir;
                    CallGetEntry containerID;
                    CallSetProjectQuota id "0" "0";
                    CallRemoveEntry containerID; CallRelease id].
Proof.
  intros containerID id Hupper Hstat Hread Hentry Hclear.
  unfold test_main.runEventListener_TaskDelete, handler.GetProjectID.
  eng_unfold. fold containerID. eng_rw Hupper. eng_rw Hstat. eng_rw Hread.
  unfold xfs.GetEntry. cbn [engine.stateManager]. rewrite Hentry. cbn.
  fold id. rewrite Z.eqb_refl, andb_false_r. cbn. eng_rw Hclear.
  unfold xfs.RemoveEntry.
  destruct (xfs.save ext _ w4) as [err' w5]. eng_unfold.
  eexists. split; [reflexivity|]. cbn. repeat split.
  - by rewrite lookup_delete_eq.
  - unfold xfs.used_at. cbn. by rewrite lookup_delete_eq.
  - by rewrite <- !app_assoc.
Qed.

End Deletion.

Section Reconciliation.
Context {World : Type} (ext : xfs.Externals World).
Import engine.

(** One iteration of the two reconciliation loops on a live container
    whose path exists and for which the state manager holds an entry:
    the loop of package handler makes no call on the pool; the loop of
    test/main.go calls MarkUsed with the identifier of the entry and does
    not call Allocate. *)
Lemma handler_syncState_body_existing (fuel : nat) (cfg : config.Config)
    (id upperdir : string) (s : Machine World) (entry : xfs.Entry)
    (w1 w2 : World) :
  xfs.GetSnapshotUpperdir ext id (world s) = (upperdir, None, w1) →
  xfs.os_Stat ext upperdir w1 = (None, w2) →
  xfs.Entries (xfs.state (stateManager s)) !! id = Some entry →
  handler.syncState_body ext fuel cfg id s =
    Ret tt {| stateManager := stateManager s;
              projectIDPool := projectIDPool s;
              world := w2;
              trace := trace s ++ [CallGetSnapshotUpperdir id;
                                   CallStat upperdir; CallGetEntry id] |}.
Proof.
  intros Hupper Hstat Hentry.
  unfold handler.syncState_body. eng_unfold. eng_rw Hupper. eng_rw Hstat.
  unfold xfs.GetEntry. cbn. rewrite Hentry. cbn.
  by rewrite <- !app_assoc.
Qed.


End Reconciliation.

(** * The properties on the in-memory world *)

Section Scenarios.
Import engine.

Lemma C6_in_use_within_range_witness :
  0 <= 1 ∧ 10 < max_uint32
  ∧ ∃ p, xfs.run_ops 12 (xfs.NewProjectIDPool 1 10)
           [xfs.OpAllocate; xfs.OpMarkUsed 7; xfs.OpRelease 0;
            xfs.OpAllocate; xfs.OpRelease 99] = Some p
         ∧ xfs.in_range p.
Proof.
  split; [lia|]. split; [reflexivity|].
  apply (C6_in_use_within_range 1 10); [lia|reflexivity| |cbn; lia].
  intros id Hin. cbn in Hin.
  destruct Hin as [Hin|[Hin|[Hin|[Hin|[Hin|[]]]]]]; try discriminate Hin.
  injection Hin as <-. lia.
Defined.

(** The creation of [c1] on a world where [xfs_quota -c "limit ..."]
    fails. *)
Lemma C8_SetLimit_failure_releases_identifier_witness :
  let w := fake.with_failures (fake.world_c1 None) false false true in
  let s := fake.machine (fake.manager ∅) (xfs.NewProjectIDPool 1 10) w in
  ∃ s', handler.handleTaskCreate fake.externals 12 (fake.cfg 1 10 "5g" "10g")
          fake.create_c1 s
        = Ret (Some (Errorf "failed to execute xfs_quota: %v, output: %s")) s'
    ∧ xfs.used_at (projectIDPool s') 1 = false
    ∧ xfs.Allocate 12 (projectIDPool s') =
        Some (1, None, xfs.MarkUsed (projectIDPool s') 1)
    ∧ stateManager s' = stateManager s
    ∧ trace s' =
        trace s ++ [CallAllocate; CallSetProjectID "/var/lib/x/c1" 1;
                    CallSetProjectQuota 1 "5g" "5g"; CallRelease 1].
Proof.
  intros w s.
  apply (C8_SetLimit_failure_releases_identifier fake.externals 12
           (fake.cfg 1 10 "5g" "10g") fake.create_c1 s
           {| Mount_Type := "overlay";
              Mount_Options := ["lowerdir=/l"; "upperdir=/var/lib/x/c1"] |}
           [] "lowerdir=/l" "upperdir=/var/lib/x/c1" [] 1
           (xfs.MarkUsed (xfs.NewProjectIDPool 1 10) 1)
           (fake.add_command w "project -s -p /var/lib/x/c1 1")
           (fake.add_command
              (fake.add_command w "project -s -p /var/lib/x/c1 1")
              "limit -p bsoft=5g bhard=5g 1"));
    reflexivity.
Defined.

(** The deletion of [c1], recorded with identifier [7] and tagged [7]. *)
Lemma C5_read_back_identifier_is_cleared_witness :
  let s := fake.machine (fake.manager {[ "c1" := fake.entry_c1 7 ]})
             (xfs.MarkUsed (xfs.NewProjectIDPool 1 10) 7)
             (fake.world_c1 (Some 7)) in
  ∃ r s' rest, handler.handleTaskDelete fake.externals fake.delete_c1 s
               = Ret r s'
    ∧ trace s' =
        trace s ++ [CallGetSnapshotUpperdir "c1"; CallStat "/var/lib/x/c1";
                    CallGetProjectIDFromXFS "/var/lib/x/c1";
                    CallGetEntry "c1"]
                ++ CallSetProjectQuota 7 "0" "0" :: rest.
Proof.
  intros s.
  refine (proj2 (C5_read_back_identifier_is_cleared fake.externals
                   fake.delete_c1 s "/var/lib/x/c1" 7
                   (fake.world_c1 (Some 7)) (fake.world_c1 (Some 7))
                   (fake.world_c1 (Some 7)) eq_refl eq_refl eq_refl) _).
  intros entry Hentry. right. vm_compute in Hentry.
  injection Hentry as <-. reflexivity.
Defined.

(** C5, the claim as stated fails: the state manager records identifier
    [7] for [c1], the path exists and reads back as untagged ([0]); the
    deletion reports no error, clears enforcement for [0], not for [7],
    and releases [0], leaving [7] in use. *)
Lemma C5_counterexample :
  let s := fake.machine (fake.manager {[ "c1" := fake.entry_c1 7 ]})
             (xfs.MarkUsed (xfs.NewProjectIDPool 1 10) 7)
             (fake.world_c1 None) in
  xfs.GetEntry "c1" (stateManager s) = (fake.entry_c1 7, true)
  ∧ ∃ s', handler.handleTaskDelete fake.externals fake.delete_c1 s
          = Ret None s'
      ∧ trace s' =
          [CallGetSnapshotUpperdir "c1"; CallStat "/var/lib/x/c1";
           CallGetProjectIDFromXFS "/var/lib/x/c1"; CallGetEntry "c1";
           CallSetProjectQuota 0 "0" "0"; CallRemoveEntry "c1";
           CallRelease 0]
      ∧ xfs.used_at (projectIDPool s') 7 = true.
Proof.
  split; [by vm_compute|].
  eexists. split; [by vm_compute|]. split; by vm_compute.
Qed.

(** C1 at the failing input: the state manager holds the entry of [c1]
    with identifier [7], [c1] is live and its path exists.  The
    reconciliation pass of package handler returns without a call of
    MarkUsed (and without Allocate); the pool is still the fresh one, [7]
    is free, and the next Allocate hands out [7]. *)
Theorem C1_handler_syncState_does_not_mark_used :
  let s := fake.machine (fake.manager {[ "c1" := fake.entry_c1 7 ]})
             (xfs.NewProjectIDPool 7 10) (fake.world_c1 (Some 7)) in
  ∃ s', handler.syncState fake.externals 12 (fake.cfg 7 10 "10g" "10g") s
        = Ret None s'
    ∧ trace s' = [CallContainers; CallGetSnapshotUpperdir "c1";
                  CallStat "/var/lib/x/c1"; CallGetEntry "c1"]
    ∧ projectIDPool s' = xfs.NewProjectIDPool 7 10
    ∧ xfs.used_at (projectIDPool s') 7 = false
    ∧ xfs.Allocate 12 (projectIDPool s') =
        Some (7, None, xfs.MarkUsed (xfs.NewProjectIDPool 7 10) 7).
Proof.
  eexists. split; [by vm_compute|]. repeat split; by vm_compute.
Qed.

(** The same input in the reconciliation pass of test/main.go: MarkUsed
    is called with [7], Allocate is not called, and the next Allocate
    hands out [8]. *)
Lemma test_main_syncState_marks_used :
  let s := fake.machine (fake.manager {[ "c1" := fake.entry_c1 7 ]})
             (xfs.NewProjectIDPool 7 10) (fake.world_c1 (Some 7)) in
  ∃ s', test_main.syncState fake.externals 12
          (fake.cfg_flat 7 10 "10g" "10g") s
        = Ret None s'
    ∧ trace s' = [CallContainers; CallGetSnapshotUpperdir "c1";
                  CallStat "/var/lib/x/c1"; CallGetEntry "c1";
                  CallMarkUsed 7]
    ∧ xfs.used_at (projectIDPool s') 7 = true
    ∧ xfs.Allocate 12 (projectIDPool s') =
        Some (8, None, xfs.MarkUsed (projectIDPool s') 8).
Proof.
  eexists. split; [by vm_compute|]. repeat split; by vm_compute.
Qed.

(** C3 at the failing input: the creation of [c1] on a world where the
    write of the state file fails.  Allocation and enforcement succeed,
    AddEntry fails, and [handleTaskCreate] releases the identifier: [1]
    is free again while the in-memory entry of [c1] still carries it. *)
Theorem C3_handleTaskCreate_releases_after_failed_persistence :
  let w := fake.with_failures (fake.world_c1 None) true false false in
  let s := fake.machine (fake.manager ∅) (xfs.NewProjectIDPool 1 10) w in
  ∃ s', handler.handleTaskCreate fake.externals 12 (fake.cfg 1 10 "10g" "10g")
          fake.create_c1 s
        = Ret (Some (ErrExternal "read-only file system")) s'
    ∧ trace s' = [CallAllocate; CallSetProjectID "/var/lib/x/c1" 1;
                  CallSetProjectQuota 1 "10g" "10g";
                  CallAddEntry "c1" 1 "/var/lib/x/c1"; CallRelease 1]
    ∧ xfs.used_at (projectIDPool s') 1 = false
    ∧ xfs.GetEntry "c1" (stateManager s') = (fake.entry_c1 1, true)
    ∧ xfs.Allocate 12 (projectIDPool s') =
        Some (1, None, xfs.MarkUsed (projectIDPool s') 1).
Proof.
  eexists. split; [by vm_compute|]. repeat split; by vm_compute.
Qed.

(** C4 at the failing input: the deletion of [c1], recorded and tagged
    with identifier [7], on a world where [xfs_quota -c "limit ..."]
    fails.  [handleTaskDelete] returns the error of the clearing; neither
    RemoveEntry nor Release is called, the entry is still there and [7]
    is still in use. *)
Theorem C4_handleTaskDelete_stops_after_failed_clearing :
  let w := fake.with_failures (fake.world_c1 (Some 7)) false false true in
  let s := fake.machine (fake.manager {[ "c1" := fake.entry_c1 7 ]})
             (xfs.MarkUsed (xfs.NewProjectIDPool 1 10) 7) w in
  ∃ s', handler.handleTaskDelete fake.externals fake.delete_c1 s
        = Ret (Some (Errorf "failed to execute xfs_quota: %v, output: %s")) s'
    ∧ trace s' = [CallGetSnapshotUpperdir "c1"; CallStat "/var/lib/x/c1";
                  CallGetProjectIDFromXFS "/var/lib/x/c1";
                  CallGetEntry "c1"; CallSetProjectQuota 7 "0" "0"]
    ∧ xfs.GetEntry "c1" (stateManager s') = (fake.entry_c1 7, true)
    ∧ xfs.used_at (projectIDPool s') 7 = true.
Proof.
  eexists. split; [by vm_compute|]. repeat split; by vm_compute.
Qed.

(** C9 at the failing input: with default soft limit [5g] and default
    hard limit [10g], the creation of [c1] by [handleTaskCreate] succeeds
    and has set the hard limit to [5g]. *)
Theorem C9_handleTaskCreate_passes_soft_limit_as_hard :
  let s := fake.machine (fake.manager ∅) (xfs.NewProjectIDPool 1 10)
             (fake.world_c1 None) in
  ∃ s', handler.handleTaskCreate fake.externals 12 (fake.cfg 1 10 "5g" "10g")
          fake.create_c1 s
        = Ret None s'
    ∧ trace s' = [CallAllocate; CallSetProjectID "/var/lib/x/c1" 1;
                  CallSetProjectQuota 1 "5g" "5g";
                  CallAddEntry "c1" 1 "/var/lib/x/c1"]
    ∧ fake.commands (world s') =
        ["project -s -p /var/lib/x/c1 1"; "limit -p bsoft=5g bhard=5g 1"].
Proof.
  eexists. split; [by vm_compute|]. repeat split; by vm_compute.
Qed.

End Scenarios.


(** * Further properties of the code *)

(** ** The identifier pool *)

Section PoolBehaviour.
Import xfs.

Lemma Allocate_loop_found_le fuel p : ∀ id k p',
  Allocate_loop fuel p id = Some (k, None, p') → k <= maxID p.
Proof.
  induction fuel as [|fuel IH]; intros id k p'; cbn; [done|].
  destruct (Z.leb_spec id (maxID p)) as [Hle|Hgt]; [|done].
  destruct (used_at p id); cbn.
  - apply IH.
  - intros [= <- <-]. done.
Qed.

Lemma Allocate_loop_exhausted fuel p : ∀ id k e p',
  0 <= id < 2 ^ 32 →
  Allocate_loop fuel p id = Some (k, Some e, p') →
  k = 0 ∧ e = Errorf "no available project ID" ∧ p' = p
  ∧ ∀ j, id <= j <= maxID p → used_at p j = true.
Proof.
  induction fuel as [|fuel IH]; intros id k e p' Hid; cbn; [done|].
  destruct (Z.leb_spec id (maxID p)) as [Hle|Hgt].
  - destruct (used_at p id) eqn:Hu; cbn; [|done].
    intros Hrec.
    assert (Hw : 0 <= wrap32 (id + 1) < 2 ^ 32)
      by (unfold wrap32; apply Z.mod_pos_bound; lia).
    destruct (IH _ _ _ _ Hw Hrec) as (-> & -> & -> & Hall).
    repeat split; try done. intros j Hj.
    destruct (decide (j = id)) as [->|Hne]; [done|].
    apply Hall. split; [|lia].
    destruct (decide (id + 1 < 2 ^ 32)) as [Hsmall|Hbig].
    + unfold wrap32. rewrite Z.mod_small; lia.
    + unfold wrap32. replace (id + 1) with (2 ^ 32) by lia.
      rewrite Z.mod_same; lia.
  - intros [= <- <- <-]. repeat split; try done. intros j Hj. lia.
Qed.

(** X1: what Allocate returns, for every range and every amount of
    fuel.  An identifier returned without error was free before the call
    and is in use after it, no other identifier changes state, the range
    is as before, and the identifier is at most [maxID].  An error is the
    exhaustion error; it comes with identifier [0] and the unchanged pool,
    and only when every identifier from [minID] to [maxID] is in use. *)
Theorem Allocate_result (fuel : nat) (p p' : ProjectIDPool) (id : Z)
    (err : option error) :
  0 <= minID p < 2 ^ 32 →
  Allocate fuel p = Some (id, err, p') →
  match err with
  | None =>
      used_at p id = false ∧ used_at p' id = true
      ∧ (∀ j, j ≠ id → used_at p' j = used_at p j)
      ∧ minID p' = minID p ∧ maxID p' = maxID p ∧ id <= maxID p
  | Some e =>
      id = 0 ∧ e = Errorf "no available project ID" ∧ p' = p
      ∧ ∀ j, minID p <= j <= maxID p → used_at p j = true
  end.
Proof.
  intros Hmin Halloc. destruct err as [e|].
  - by apply (Allocate_loop_exhausted fuel p (minID p)).
  - pose proof (Allocate_loop_found_le _ _ _ _ _ Halloc) as Hle.
    destruct (Allocate_loop_found _ _ _ _ _ Halloc) as [Hfree ->].
    repeat split; try done.
    + unfold MarkUsed, used_at. cbn. by rewrite lookup_insert_eq.
    + intros j Hj. unfold MarkUsed, used_at. cbn.
      by rewrite lookup_insert_ne.
Qed.

(** X2: on a pool whose upper bound is below the largest [uint32], and
    with fuel for one pass over the range, Allocate returns: if some
    identifier of the range is free it hands out the lowest free one, and
    if none is free it reports exhaustion and leaves the pool as it was. *)
Theorem Allocate_below_max_uint32 (fuel : nat) (p : ProjectIDPool) :
  0 <= minID p → maxID p < max_uint32 → (range_fuel p <= fuel)%nat →
  (∀ k, minID p <= k <= maxID p → used_at p k = false →
     ∃ k', minID p <= k' <= k ∧ used_at p k' = false
       ∧ (∀ j, minID p <= j < k' → used_at p j = true)
       ∧ Allocate fuel p = Some (k', None, MarkUsed p k'))
  ∧ ((∀ j, minID p <= j <= maxID p → used_at p j = true) →
     Allocate fuel p = Some (0, Some (Errorf "no available project ID"), p)).
Proof.
  intros Hmin Hmax Hfuel.
  destruct (Allocate_lowest_free p fuel Hmin Hmax Hfuel)
    as [(k' & Hk' & Hfree & Hbelow & Heq)|[Hall Heq]]; split.
  - intros k Hk Hkfree. exists k'. repeat split; try done; try lia.
    destruct (decide (k' <= k)) as [|Hgt]; [done|].
    rewrite Hbelow in Hkfree; [done|lia].
  - intros Hall. rewrite Hall in Hfree; [done|lia].
  - intros k Hk Hkfree. rewrite Hall in Hkfree; done.
  - done.
Qed.

Lemma run_ops_app fuel ops1 : ∀ p ops2,
  run_ops fuel p (ops1 ++ ops2) =
  match run_ops fuel p ops1 with
  | Some p' => run_ops fuel p' ops2
  | None => None
  end.
Proof.
  induction ops1 as [|op ops1 IH]; intros p ops2; cbn; [done|].
  destruct (apply_op fuel p op); [apply IH|done].
Qed.

(** The pool after [m] allocations in a row on a fresh pool. *)
Lemma Allocate_next lo hi fuel p m :
  0 <= lo → hi < max_uint32 → (Z.to_nat (hi - lo) + 2 <= fuel)%nat →
  minID p = lo → maxID p = hi → 0 <= m →
  (∀ j, used_at p j = true ↔ lo <= j < lo + m) →
  Allocate fuel p =
    if decide (lo + m <= hi) then Some (lo + m, None, MarkUsed p (lo + m))
    else Some (0, Some (Errorf "no available project ID"), p).
Proof.
  intros Hlo Hhi Hfuel Hmin Hmax Hm Hused.
  destruct (Allocate_lowest_free p fuel)
    as [(k & Hk & Hfree & Hbelow & Heq)|[Hall Heq]];
    [lia|lia|unfold range_fuel; lia| |].
  - assert (k = lo + m) as ->.
    { destruct (decide (k < lo + m)) as [Hlt|Hge].
      - assert (used_at p k = true) as Hk' by (apply Hused; lia).
        congruence.
      - destruct (decide (lo + m < k)) as [Hgt|]; [|lia].
        assert (used_at p (lo + m) = true) as Hu by (apply Hbelow; lia).
        apply Hused in Hu. lia. }
    rewrite Heq. case_decide; [done|lia].
  - rewrite Heq. case_decide as Hle; [|done].
    assert (used_at p (lo + m) = true) as Hu by (apply Hall; lia).
    apply Hused in Hu. lia.
Qed.

(** X3: allocation is sequential and the range has exactly
    [maxID - minID + 1] identifiers to give: after [k] calls of Allocate
    on a fresh pool over [lo, hi] (with [hi] below the largest [uint32] and
    [k] at most the size of the range) the identifiers in use are exactly
    [lo, ..., lo + k - 1]; the next call returns [lo + k] if that is in
    the range, and otherwise fails without changing the pool. *)
Theorem Allocate_in_sequence (lo hi : Z) (k fuel : nat) :
  0 <= lo → hi < max_uint32 → Z.of_nat k <= hi - lo + 1 →
  (Z.to_nat (hi - lo) + 2 <= fuel)%nat →
  ∃ p, run_ops fuel (NewProjectIDPool lo hi) (repeat OpAllocate k) = Some p
    ∧ (∀ j, used_at p j = true ↔ lo <= j < lo + Z.of_nat k)
    ∧ Allocate fuel p =
        if decide (lo + Z.of_nat k <= hi)
        then Some (lo + Z.of_nat k, None, MarkUsed p (lo + Z.of_nat k))
        else Some (0, Some (Errorf "no available project ID"), p).
Proof.
  intros Hlo Hhi Hk Hfuel.
  assert (Hrun : ∃ p,
    run_ops fuel (NewProjectIDPool lo hi) (repeat OpAllocate k) = Some p
    ∧ minID p = lo ∧ maxID p = hi
    ∧ ∀ j, used_at p j = true ↔ lo <= j < lo + Z.of_nat k).
  { induction k as [|k IH].
    - eexists. split; [done|]. repeat split; try done; cbn; try lia.
    - destruct IH as (p & Hp & Hmin & Hmax & Hused); [lia|].
      replace (repeat OpAllocate (S k))
        with (repeat OpAllocate k ++ [OpAllocate])
        by (by rewrite <- repeat_cons).
      rewrite run_ops_app, Hp. cbn.
      rewrite (Allocate_next lo hi fuel p (Z.of_nat k)); try done; [|lia].
      case_decide; [|lia].
      eexists. split; [done|]. split; [done|]. split; [done|].
      intros j. unfold MarkUsed. unfold used_at at 1. cbn [used set_used].
      rewrite (used_at_insert p (lo + Z.of_nat k) j).
      specialize (Hused j). case_decide; [lia|].
      rewrite Hused. lia. }
  destruct Hrun as (p & Hp & Hmin & Hmax & Hused).
  exists p. split; [done|]. split; [done|].
  apply (Allocate_next lo hi); try done. lia.
Qed.

(** X4: Release is idempotent, Release and MarkUsed change the state of
    their argument only, and MarkUsed followed by Release of the same
    identifier leaves it free whatever its state was before. *)
Theorem Release_MarkUsed_behaviour (p : ProjectIDPool) (id : Z) :
  Release (Release p id) id = Release p id
  ∧ MarkUsed (MarkUsed p id) id = MarkUsed p id
  ∧ (∀ j, used_at (Release p id) j =
          if decide (j = id) then false else used_at p j)
  ∧ (∀ j, used_at (MarkUsed p id) j =
          if decide (j = id) then true else used_at p j)
  ∧ used_at (Release (MarkUsed p id) id) id = false.
Proof.
  repeat split.
  - unfold Release. cbn. by rewrite delete_delete_eq.
  - unfold MarkUsed. cbn. by rewrite insert_insert_eq.
  - intros j. unfold Release, used_at at 1. cbn. rewrite used_at_delete.
    by repeat case_decide.
  - intros j. unfold MarkUsed, used_at at 1. cbn. rewrite used_at_insert.
    by repeat case_decide.
  - unfold Release, MarkUsed, used_at. cbn. by rewrite lookup_delete_eq.
Qed.

End PoolBehaviour.

(** ** The state manager *)

Section StateStoreBehaviour.
Context {World : Type} (ext : xfs.Externals World).
Import xfs.


(** X6: after RemoveEntry, whether or not the write of the file
    succeeded, GetEntry reports the container as absent, with the zero
    entry, and the entries of the other containers are as before.  For a
    container that had no entry the state manager is left as it was, but
    the file is still written: the call returns the error of saving the
    unchanged state, so removing an absent container can fail. *)
Theorem RemoveEntry_behaviour (containerID : string) (m : StateManager)
    (w : World) :
  let removed := RemoveEntry ext containerID m w in
  GetEntry containerID removed.1.2 = (Entry_zero, false)
  ∧ (∀ other, other ≠ containerID →
       GetEntry other removed.1.2 = GetEntry other m)
  ∧ filePath removed.1.2 = filePath m
  ∧ (Entries (state m) !! containerID = None →
     removed = ((save ext m w).1, m, (save ext m w).2)).
Proof.
  unfold RemoveEntry. split; [|split; [|split]].
  - destruct (save ext _ w). unfold GetEntry. cbn.
    by rewrite lookup_delete_eq.
  - intros other Hne. destruct (save ext _ w). unfold GetEntry. cbn.
    by rewrite lookup_delete_ne.
  - by destruct (save ext _ w).
  - intros Habsent. rewrite delete_id by done.
    assert (set_state m {| Entries := Entries (state m) |} = m) as ->
      by (by destruct m as [path [entries]]).
    by destruct (save ext m w).
Qed.

Lemma NewStateManager_inv (path : string) (w : World) :
  match NewStateManager ext path w with
  | (Some m, err, _) => err = None ∧ filePath m = path
  | (None, err, _) => err ≠ None
  end.
Proof.
  unfold NewStateManager, load. cbn.
  destruct (os_ReadFile ext path w) as [[data [e|]] w1]; cbn.
  - destruct e; cbn; try done.
    destruct (os_MkdirAll ext (filepath_Dir ext path) w1) as [[e|] w2];
      [done|].
    by destruct (os_Create ext path w2) as [[e|] w3].
  - destruct data as [|b data]; cbn; [done|].
    rewrite map_size_empty. cbn.
    destruct (json_Unmarshal ext (b :: data) _) as [st [e|]]; cbn; [|done].
    destruct e; cbn; try done.
    destruct (os_MkdirAll ext (filepath_Dir ext path) w1) as [[e|] w2];
      [done|].
    by destruct (os_Create ext path w2) as [[e|] w3].
Qed.

(** X7: NewStateManager returns a state manager exactly when it returns
    no error, and the manager it returns is for the path it was given. *)
Theorem NewStateManager_manager_or_error (path : string) (w : World) :
  match NewStateManager ext path w with
  | (Some m, err, _) => err = None ∧ filePath m = path
  | (None, err, _) => err ≠ None
  end.
Proof. apply NewStateManager_inv. Qed.

(** X8: when the state file does not exist, NewStateManager creates its
    directory and the file and returns an empty store; when the directory
    cannot be created it returns that error and does not create the
    file. *)
Theorem NewStateManager_missing_file (path : string) (w w1 : World)
    (data : list Byte.byte) :
  os_ReadFile ext path w = (data, Some ErrNotExist, w1) →
  (∀ w2 w3,
     os_MkdirAll ext (filepath_Dir ext path) w1 = (None, w2) →
     os_Create ext path w2 = (None, w3) →
     NewStateManager ext path w =
       (Some {| filePath := path; state := {| Entries := ∅ |} |}, None, w3))
  ∧ (∀ e w2,
       os_MkdirAll ext (filepath_Dir ext path) w1 = (Some e, w2) →
       NewStateManager ext path w = (None, Some e, w2)).
Proof.
  intros Hread. split.
  - intros w2 w3 Hmkdir Hcreate. unfold NewStateManager, load. cbn.
    rewrite Hread. cbn. rewrite Hmkdir. by rewrite Hcreate.
  - intros e w2 Hmkdir. unfold NewStateManager, load. cbn.
    rewrite Hread. cbn. by rewrite Hmkdir.
Qed.

(** X9: a state file that is not empty and that the decoder rejects
    makes NewStateManager fail with the error of the decoder; no state
    manager is returned and nothing is created or written: the world is
    the one the read left. *)
Theorem NewStateManager_malformed_file (path : string) (w w' : World)
    (b : Byte.byte) (data : list Byte.byte) (st : State) (e : error) :
  os_ReadFile ext path w = (b :: data, None, w') →
  json_Unmarshal ext (b :: data) {| Entries := ∅ |} = (st, Some e) →
  os_IsNotExist (Some e) = false →
  NewStateManager ext path w = (None, Some e, w').
Proof.
  intros Hread Hjson He.
  apply (NewStateManager_malformed ext path w w' b data st e Hread Hjson).
  by intros ->.
Qed.

(** X10: a state written by a successful AddEntry is the state that a
    restart finds: if the file system returns the document that was
    written, the document is not empty and the decoder inverts the encoder
    on it, NewStateManager on the same path returns the state manager that
    AddEntry left. *)
Theorem AddEntry_then_restart (containerID : string) (projectID : Z)
    (upperdir : string) (m : StateManager) (w w1 w2 : World)
    (b : Byte.byte) (data : list Byte.byte) :
  let entry := {| ContainerID := containerID; ProjectID := projectID;
                  Upperdir := upperdir |} in
  let m' := set_state m
              {| Entries := <[containerID := entry]> (Entries (state m)) |}
  in
  json_MarshalIndent ext (state m') "" "  " = (b :: data, None) →
  os_WriteFile ext (filePath m) (b :: data) w = (None, w1) →
  os_ReadFile ext (filePath m) w1 = (b :: data, None, w2) →
  json_Unmarshal ext (b :: data) {| Entries := ∅ |} = (state m', None) →
  AddEntry ext containerID projectID upperdir m w = (None, m', w1)
  ∧ NewStateManager ext (filePath m) w1 = (Some m', None, w2).
Proof.
  intros entry m' Hjson Hwrite Hread Hdecode. split.
  - unfold AddEntry, save. fold entry. fold m'. rewrite Hjson. cbn.
    by rewrite Hwrite.
  - unfold NewStateManager, load. cbn. rewrite Hread. cbn.
    by rewrite Hdecode.
Qed.

End StateStoreBehaviour.

(** ** The quota tools and the path of a container *)

Section ToolsBehaviour.
Context {World : Type} (ext : xfs.Externals World).

(** X11: [GetProjectIDFromXFS] returns identifier [0] with every error
    (the tool failed, no [projid] in its output, or a number that does not
    parse), and the identifier it returns is always a [uint32]. *)
Theorem GetProjectIDFromXFS_result (path : string) (w : World) :
  let '(id, err, _) := xfs.GetProjectIDFromXFS ext path w in
  (err ≠ None → id = 0) ∧ 0 <= id < 2 ^ 32.
Proof.
  unfold xfs.GetProjectIDFromXFS.
  destruct (xfs.exec_CombinedOutput ext _ _ w) as [[output [e|]] w1];
    [split; [done|lia]|].
  destruct (length _ <? 2)%nat; [split; [done|lia]|].
  destruct (xfs.strconv_ParseUint ext _ 10 32) as [projid [e|]];
    [split; [done|lia]|].
  split; [done|]. unfold wrap32. apply Z.mod_pos_bound. lia.
Qed.

(** X12: [GetSnapshotUpperdir] returns a non-empty path exactly when it
    returns no error: a snapshot without an [upperdir=] option on an
    overlay mount is an error, and every error comes with the empty
    path. *)
Theorem GetSnapshotUpperdir_path_or_error (containerID : string) (w : World) :
  let '(upperDir, err, _) := xfs.GetSnapshotUpperdir ext containerID w in
  (err = None → upperDir ≠ "") ∧ (err ≠ None → upperDir = "").
Proof.
  unfold xfs.GetSnapshotUpperdir.
  destruct (xfs.client_LoadContainer ext containerID w) as [[e|] w1];
    [done|].
  destruct (xfs.container_Info ext containerID w1) as [[info [e|]] w2];
    [done|].
  destruct (xfs.snapshotter_Mounts ext _ _ w2) as [[mounts [e|]] w3];
    [done|].
  destruct (String.eqb_spec (xfs.scan_mounts mounts) ""); [done|].
  done.
Qed.

Lemma substring_all (u : string) :
  String.substring 0 (String.length u) u = u.
Proof. induction u as [|c u IH]; cbn; [done|]. by rewrite IH. Qed.

Lemma TrimPrefix_upperdir (u : string) :
  HasPrefix ("upperdir=" +:+ u) "upperdir=" = true
  ∧ TrimPrefix ("upperdir=" +:+ u) "upperdir=" = u.
Proof.
  assert (Hpre : HasPrefix ("upperdir=" +:+ u) "upperdir=" = true).
  { unfold HasPrefix. cbv beta iota delta [String.append]. cbn.
    by destruct u. }
  split; [done|]. unfold TrimPrefix. rewrite Hpre.
  cbv beta iota delta [String.append]. cbn.
  replace (String.length u - 0)%nat with (String.length u) by lia.
  apply substring_all.
Qed.

Lemma scan_options_no_upperdir (opts : list string) : ∀ upperDir,
  Forall (λ opt, HasPrefix opt "upperdir=" = false) opts →
  xfs.scan_options upperDir opts = upperDir.
Proof.
  unfold xfs.scan_options.
  induction opts as [|opt opts IH]; intros upperDir Hall; cbn; [done|].
  inversion Hall as [|? ? Hopt Hopts]; subst. rewrite Hopt. by apply IH.
Qed.

Lemma scan_options_upperdir (upperDir u : string)
    (before after : list string) :
  Forall (λ opt, HasPrefix opt "upperdir=" = false) after →
  xfs.scan_options upperDir (before ++ ("upperdir=" +:+ u) :: after) = u.
Proof.
  intros Hafter. unfold xfs.scan_options. rewrite fold_left_app.
  cbn [fold_left]. destruct (TrimPrefix_upperdir u) as [-> ->].
  by apply scan_options_no_upperdir.
Qed.

(** X13: the path is taken from the last [upperdir=] option of the last
    overlay mount that has one: when the last overlay mount of the
    snapshot has options [before ++ "upperdir=" u :: after], with no
    [upperdir=] option in [after], and only mounts of other types follow
    it, [GetSnapshotUpperdir] returns [u] if it is not empty, whatever
    the earlier mounts and options are. *)
Theorem GetSnapshotUpperdir_last_upperdir_option (containerID : string)
    (w w1 w2 w3 : World) (info : Info) (earlier later : list Mount)
    (before after : list string) (u : string) :
  xfs.client_LoadContainer ext containerID w = (None, w1) →
  xfs.container_Info ext containerID w1 = (info, None, w2) →
  xfs.snapshotter_Mounts ext (Snapshotter info) (SnapshotKey info) w2 =
    (earlier
       ++ {| Mount_Type := "overlay";
             Mount_Options := before ++ ("upperdir=" +:+ u) :: after |}
       :: later, None, w3) →
  Forall (λ opt, HasPrefix opt "upperdir=" = false) after →
  Forall (λ mount, String.eqb (Mount_Type mount) "overlay" = false) later →
  u ≠ "" →
  xfs.GetSnapshotUpperdir ext containerID w = (u, None, w3).
Proof.
  intros Hload Hinfo Hmounts Hafter Hlater Hu.
  unfold xfs.GetSnapshotUpperdir. rewrite Hload, Hinfo, Hmounts.
  assert (Hscan :
    xfs.scan_mounts
      (earlier
         ++ {| Mount_Type := "overlay";
               Mount_Options := before ++ ("upperdir=" +:+ u) :: after |}
         :: later) = u).
  { unfold xfs.scan_mounts. rewrite fold_left_app.
    cbn [fold_left Mount_Type Mount_Options]. rewrite String.eqb_refl.
    rewrite scan_options_upperdir by done.
    clear Hmounts. induction later as [|mount later IH]; cbn; [done|].
    inversion Hlater as [|? ? Hmount Hrest]; subst.
    rewrite Hmount. by apply IH. }
  rewrite Hscan. by destruct (String.eqb_spec u "").
Qed.


End ToolsBehaviour.

(** ** Configuration and start-up *)

Section ConfigBehaviour.
Context {World : Type} (ext : xfs.Externals World).

Lemma LoadConfig_inv
    (decode : list Byte.byte → config.Config → config.Config * option error)
    (filePath : string) (w w' : World) (cfg : config.Config)
    (err : option error) :
  config_file.LoadConfig ext decode filePath w = (Some cfg, err, w') →
  err = None
  ∧ config.StateFilePath cfg ≠ ""
  ∧ 0 ≠ config.IDMin (config.Project cfg)
  ∧ 0 ≠ config.IDMax (config.Project cfg)
  ∧ config.IDMin (config.Project cfg) < config.IDMax (config.Project cfg)
  ∧ config.ContainerdSock cfg ≠ ""
  ∧ config.DefaultSoft (config.Quota cfg) ≠ ""
  ∧ config.DefaultHard (config.Quota cfg) ≠ ""
  ∧ config.Namespace cfg ≠ "".
Proof.
  unfold config_file.LoadConfig.
  destruct (xfs.os_ReadFile ext filePath w) as [[data [e|]] w1]; [done|].
  destruct (decode data config_file.Config_zero) as [c [e|]]; [done|].
  destruct c as [path [lo hi] port sock [soft hard] ns]. cbn.
  destruct (String.eqb_spec path ""); [done|].
  destruct (Z.eqb_spec lo 0); [done|].
  destruct (Z.eqb_spec hi 0); [done|]. cbn.
  destruct (Z.geb_spec lo hi); [done|].
  destruct (String.eqb_spec sock ""); [done|].
  destruct (String.eqb_spec port ""); cbn;
    (destruct (String.eqb_spec soft ""); cbn;
     (destruct (String.eqb_spec hard ""); cbn;
      (destruct (String.eqb_spec ns ""); cbn;
       intros [= <- <- <-]; cbn; repeat split; (done || lia)))).
Qed.


(** X16: the defaults of [LoadConfig] of pkg/config: when the file is
    read and decoded and passes the three checks, the configuration
    returned is the decoded one with an empty default soft or hard limit
    replaced by [10g] and an empty namespace by [default], every other
    field as decoded. *)
Theorem LoadConfig_fills_defaults
    (decode : list Byte.byte → config.Config → config.Config * option error)
    (filePath : string) (w w' : World) (data : list Byte.byte)
    (c : config.Config) :
  xfs.os_ReadFile ext filePath w = (data, None, w') →
  decode data config_file.Config_zero = (c, None) →
  config.StateFilePath c ≠ "" →
  0 ≠ config.IDMin (config.Project c) → 0 ≠ config.IDMax (config.Project c) →
  config.IDMin (config.Project c) < config.IDMax (config.Project c) →
  config.ContainerdSock c ≠ "" →
  config_file.LoadConfig ext decode filePath w =
    (Some {| config.StateFilePath := config.StateFilePath c;
             config.Project := config.Project c;
             config.MetricsPort := config.MetricsPort c;
             config.ContainerdSock := config.ContainerdSock c;
             config.Quota :=
               {| config.DefaultSoft :=
                    if String.eqb (config.DefaultSoft (config.Quota c)) ""
                    then "10g" else config.DefaultSoft (config.Quota c);
                  config.DefaultHard :=
                    if String.eqb (config.DefaultHard (config.Quota c)) ""
                    then "10g" else config.DefaultHard (config.Quota c) |};
             config.Namespace :=
               if String.eqb (config.Namespace c) ""
               then "default" else config.Namespace c |},
     None, w').
Proof.
  intros Hread Hdecode Hpath Hlo Hhi Hrange Hsock.
  unfold config_file.LoadConfig. rewrite Hread, Hdecode.
  destruct c as [path [lo hi] port sock [soft hard] ns]. cbn in *.
  destruct (String.eqb_spec path ""); [done|].
  destruct (Z.eqb_spec lo 0); [lia|].
  destruct (Z.eqb_spec hi 0); [lia|]. cbn.
  destruct (Z.geb_spec lo hi); [lia|].
  destruct (String.eqb_spec sock ""); [done|].
  destruct (String.eqb_spec port ""); cbn;
    (destruct (String.eqb_spec soft ""); cbn;
     (destruct (String.eqb_spec hard ""); cbn;
      (destruct (String.eqb_spec ns ""); subst; reflexivity))).
Qed.


(** X18: what [NewRFSQuota] returns on success: no error, the loaded
    configuration, a state manager on the configured path, no call made
    yet, and a pool over the configured range in which no identifier is in
    use, whatever entries the state file holds; the first Allocate on it
    returns [IDMin]. *)
Theorem NewRFSQuota_starts_with_empty_pool
    (decode : list Byte.byte → config.Config → config.Config * option error)
    (configPath : string) (w w' : World) (cfg : config.Config)
    (s : engine.Machine World) (err : option error) :
  handler_run.NewRFSQuota ext decode configPath w = (Some (cfg, s), err, w') →
  err = None
  ∧ xfs.filePath (engine.stateManager s) = config.StateFilePath cfg
  ∧ engine.projectIDPool s =
      xfs.NewProjectIDPool (config.IDMin (config.Project cfg))
                           (config.IDMax (config.Project cfg))
  ∧ (∀ id, xfs.used_at (engine.projectIDPool s) id = false)
  ∧ engine.trace s = [] ∧ engine.world s = w'
  ∧ ∀ fuel, xfs.Allocate (S fuel) (engine.projectIDPool s) =
      Some (config.IDMin (config.Project cfg), None,
            xfs.MarkUsed (engine.projectIDPool s)
              (config.IDMin (config.Project cfg))).
Proof.
  unfold handler_run.NewRFSQuota.
  destruct (config_file.LoadConfig ext decode configPath w)
    as [[[c|] e] w1] eqn:Hload; [|done].
  destruct (LoadConfig_inv _ _ _ _ _ _ Hload)
    as (-> & _ & _ & _ & Hrange & _).
  pose proof (NewStateManager_inv ext (config.StateFilePath c) w1) as Hnew.
  destruct (xfs.NewStateManager ext (config.StateFilePath c) w1)
    as [[[m|] e] w2]; [|done].
  destruct Hnew as [-> Hpath]. intros [= <- <- <-]. cbn.
  repeat split; try done.
  intros fuel. unfold xfs.Allocate. cbn.
  destruct (Z.leb_spec (config.IDMin (config.Project c))
              (config.IDMax (config.Project c))); [done|lia].
Qed.

End ConfigBehaviour.

(** ** The handlers of package handler *)

Section HandlerBehaviour.
Context {World : Type} (ext : xfs.Externals World).
Import engine.

Lemma Allocate_loop_error_unchanged fuel p : ∀ id k e p',
  xfs.Allocate_loop fuel p id = Some (k, Some e, p') → k = 0 ∧ p' = p.
Proof.
  induction fuel as [|fuel IH]; intros id k e p'; cbn; [done|].
  destruct (id <=? xfs.maxID p); [|by intros [= <- <- <-]].
  destruct (negb (xfs.used_at p id)); [done|]. apply IH.
Qed.

Lemma AddEntry_inv containerID projectID upperdir m w err m' w' :
  xfs.AddEntry ext containerID projectID upperdir m w = (err, m', w') →
  m' = xfs.set_state m
         {| xfs.Entries :=
              <[containerID := {| xfs.ContainerID := containerID;
                                  xfs.ProjectID := projectID;
                                  xfs.Upperdir := upperdir |}]>
                (xfs.Entries (xfs.state m)) |}.
Proof.
  unfold xfs.AddEntry. destruct (xfs.save ext _ w). by intros [= _ <- _].
Qed.

Lemma RemoveEntry_inv containerID m w err m' w' :
  xfs.RemoveEntry ext containerID m w = (err, m', w') →
  m' = xfs.set_state m
         {| xfs.Entries := delete containerID (xfs.Entries (xfs.state m)) |}.
Proof.
  unfold xfs.RemoveEntry. destruct (xfs.save ext _ w). by intros [= _ <- _].
Qed.

(** X19: when Allocate, Tag, SetLimit and AddEntry all succeed,
    [handleTaskCreate] returns nil after exactly these four calls; the
    identifier was free and is now in use, and the state manager holds
    for the container the entry with that identifier and the path taken
    from the second option of the first mount. *)
Theorem handleTaskCreate_success
    (fuel : nat) (cfg : config.Config) (e : TaskCreate) (s : Machine World)
    (rootfs0 : Mount) (rootfs : list Mount)
    (option0 option1 : string) (options : list string)
    (id : Z) (p : xfs.ProjectIDPool) (w1 w2 w3 : World)
    (m : xfs.StateManager) :
  let upperdir := TrimPrefix option1 "upperdir=" in
  let soft := config.DefaultSoft (config.Quota cfg) in
  let containerID := TaskCreate_ContainerID e in
  TaskCreate_Rootfs e = rootfs0 :: rootfs →
  Mount_Options rootfs0 = option0 :: option1 :: options →
  xfs.Allocate fuel (projectIDPool s) = Some (id, None, p) →
  xfs.SetProjectIDWithXFSQuota ext upperdir id (world s) = (None, w1) →
  xfs.SetProjectQuotaWithXFSQuota ext id soft soft w1 = (None, w2) →
  xfs.AddEntry ext containerID id upperdir (stateManager s) w2
    = (None, m, w3) →
  handler.handleTaskCreate ext fuel cfg e s =
    Ret None {| stateManager := m; projectIDPool := p; world := w3;
                trace := trace s ++ [CallAllocate;
                                     CallSetProjectID upperdir id;
                                     CallSetProjectQuota id soft soft;
                                     CallAddEntry containerID id upperdir] |}
  ∧ xfs.used_at (projectIDPool s) id = false
  ∧ xfs.used_at p id = true
  ∧ xfs.GetEntry containerID m =
      ({| xfs.ContainerID := containerID; xfs.ProjectID := id;
          xfs.Upperdir := upperdir |}, true).
Proof.
  intros upperdir soft containerID Hrootfs Hoptions Halloc Htag Hlimit Hadd.
  split.
  - unfold handler.handleTaskCreate. eng_rw Hrootfs. eng_rw Hoptions.
    eng_rw Halloc. fold upperdir. eng_rw Htag. fold soft. eng_rw Hlimit.
    fold containerID. eng_rw Hadd. by rewrite <- !app_assoc.
  - destruct (Allocate_loop_found _ _ _ _ _ Halloc) as [Hfree ->].
    rewrite (AddEntry_inv _ _ _ _ _ _ _ _ Hadd).
    repeat split; try done.
    + unfold xfs.MarkUsed, xfs.used_at. cbn. by rewrite lookup_insert_eq.
    + unfold xfs.GetEntry. cbn. by rewrite lookup_insert_eq.
Qed.

(** X20: when the pool is exhausted, [handleTaskCreate] returns the
    error of Allocate having called nothing else: the state manager, the
    pool and the world are as they were. *)
Theorem handleTaskCreate_pool_exhausted
    (fuel : nat) (cfg : config.Config) (e : TaskCreate) (s : Machine World)
    (rootfs0 : Mount) (rootfs : list Mount)
    (option0 option1 : string) (options : list string)
    (id : Z) (err : error) (p : xfs.ProjectIDPool) :
  TaskCreate_Rootfs e = rootfs0 :: rootfs →
  Mount_Options rootfs0 = option0 :: option1 :: options →
  xfs.Allocate fuel (projectIDPool s) = Some (id, Some err, p) →
  handler.handleTaskCreate ext fuel cfg e s =
    Ret (Some err) {| stateManager := stateManager s;
                      projectIDPool := projectIDPool s;
                      world := world s;
                      trace := trace s ++ [CallAllocate] |}.
Proof.
  intros Hrootfs Hoptions Halloc.
  destruct (Allocate_loop_error_unchanged _ _ _ _ _ _ Halloc) as [-> ->].
  unfold handler.handleTaskCreate. eng_rw Hrootfs. eng_rw Hoptions.
  by eng_rw Halloc.
Qed.

(** X21: when Tag fails, [handleTaskCreate] returns its error after
    releasing the identifier; SetLimit and AddEntry are not called, the
    state manager is as it was, and the identifier is free. *)
Theorem handleTaskCreate_Tag_failure
    (fuel : nat) (cfg : config.Config) (e : TaskCreate) (s : Machine World)
    (rootfs0 : Mount) (rootfs : list Mount)
    (option0 option1 : string) (options : list string)
    (id : Z) (p : xfs.ProjectIDPool) (w1 : World) (err : error) :
  let upperdir := TrimPrefix option1 "upperdir=" in
  TaskCreate_Rootfs e = rootfs0 :: rootfs →
  Mount_Options rootfs0 = option0 :: option1 :: options →
  xfs.Allocate fuel (projectIDPool s) = Some (id, None, p) →
  xfs.SetProjectIDWithXFSQuota ext upperdir id (world s) = (Some err, w1) →
  handler.handleTaskCreate ext fuel cfg e s =
    Ret (Some err) {| stateManager := stateManager s;
                      projectIDPool := xfs.Release p id;
                      world := w1;
                      trace := trace s ++ [CallAllocate;
                                           CallSetProjectID upperdir id;
                                           CallRelease id] |}
  ∧ xfs.used_at (xfs.Release p id) id = false
  ∧ ∀ j, xfs.used_at (xfs.Release p id) j = xfs.used_at (projectIDPool s) j.
Proof.
  intros upperdir Hrootfs Hoptions Halloc Htag. split.
  - unfold handler.handleTaskCreate. eng_rw Hrootfs. eng_rw Hoptions.
    eng_rw Halloc. fold upperdir. eng_rw Htag. by rewrite <- !app_assoc.
  - destruct (Allocate_loop_found _ _ _ _ _ Halloc) as [Hfree ->].
    assert (Hsame : ∀ j, xfs.used_at (xfs.Release
              (xfs.MarkUsed (projectIDPool s) id) id) j
            = xfs.used_at (projectIDPool s) j).
    { intros j. unfold xfs.Release, xfs.MarkUsed, xfs.used_at. cbn.
      rewrite lookup_delete, lookup_insert.
      case_decide; [subst; symmetry; apply Hfree|done]. }
    split; [by rewrite Hsame|done].
Qed.

(** X22: a creation event without a mount, or whose first mount has
    fewer than two options, makes [handleTaskCreate] (and the creation case
    of test/main.go) panic on the index, before any call. *)
Theorem handleTaskCreate_panics_on_short_event
    (fuel : nat) (cfg : config.Config) (cfg' : config_flat.Config)
    (e : TaskCreate) (s : Machine World) :
  match TaskCreate_Rootfs e with
  | [] => True
  | rootfs0 :: _ => (length (Mount_Options rootfs0) < 2)%nat
  end →
  handler.handleTaskCreate ext fuel cfg e s = Panic "index out of range"
  ∧ test_main.runEventListener_TaskCreate ext fuel cfg' e s
    = Panic "index out of range".
Proof.
  intros Hshort.
  unfold handler.handleTaskCreate, test_main.runEventListener_TaskCreate.
  eng_unfold.
  destruct (TaskCreate_Rootfs e) as [|rootfs0 rootfs]; cbn; [done|].
  destruct (Mount_Options rootfs0) as [|option0 [|option1 options]];
    cbn in *; [done|done|lia].
Qed.

(** X23: when the path of the container cannot be resolved,
    [handleTaskDelete] returns that error having called nothing else: the
    state manager and the pool are as they were, the entry and the
    identifier of the container stay. *)
Theorem handleTaskDelete_unresolved_path (e : TaskDelete) (s : Machine World)
    (upperdir : string) (err : error) (w1 : World) :
  let containerID := TaskDelete_ContainerID e in
  xfs.GetSnapshotUpperdir ext containerID (world s)
    = (upperdir, Some err, w1) →
  handler.handleTaskDelete ext e s =
    Ret (Some err) {| stateManager := stateManager s;
                      projectIDPool := projectIDPool s;
                      world := w1;
                      trace := trace s
                               ++ [CallGetSnapshotUpperdir containerID] |}.
Proof.
  intros containerID Hupper. unfold handler.handleTaskDelete. eng_unfold.
  fold containerID. by eng_rw Hupper.
Qed.

(** X24: when [os.Stat] of the path fails (the path is gone, or any other
    error), [handleTaskDelete] consults neither the filesystem tag nor the
    state manager for the identifier: it clears the limits of project [0],
    removes the entry and releases [0].  The identifier recorded for the
    container, if it is not [0], is as much in use after the deletion as
    before. *)
Theorem handleTaskDelete_missing_path (e : TaskDelete) (s : Machine World)
    (upperdir : string) (staterr : error) (w1 w2 w3 w4 : World)
    (m : xfs.StateManager) :
  let containerID := TaskDelete_ContainerID e in
  xfs.GetSnapshotUpperdir ext containerID (world s) = (upperdir, None, w1) →
  xfs.os_Stat ext upperdir w1 = (Some staterr, w2) →
  xfs.SetProjectQuotaWithXFSQuota ext 0 "0" "0" w2 = (None, w3) →
  xfs.RemoveEntry ext containerID (stateManager s) w3 = (None, m, w4) →
  handler.handleTaskDelete ext e s =
    Ret None {| stateManager := m;
                projectIDPool := xfs.Release (projectIDPool s) 0;
                world := w4;
                trace := trace s
                         ++ [CallGetSnapshotUpperdir containerID;
                             CallStat upperdir;
                             CallSetProjectQuota 0 "0" "0";
                             CallRemoveEntry containerID; CallRelease 0] |}
  ∧ xfs.GetEntry containerID m = (xfs.Entry_zero, false)
  ∧ ∀ entry,
      xfs.Entries (xfs.state (stateManager s)) !! containerID = Some entry →
      xfs.ProjectID entry ≠ 0 →
      xfs.used_at (xfs.Release (projectIDPool s) 0) (xfs.ProjectID entry)
      = xfs.used_at (projectIDPool s) (xfs.ProjectID entry).
Proof.
  intros containerID Hupper Hstat Hclear Hremove. repeat split.
  - unfold handler.handleTaskDelete. eng_unfold. fold containerID.
    eng_rw Hupper. eng_rw Hstat. eng_rw Hclear. eng_rw Hremove.
    by rewrite <- !app_assoc.
  - rewrite (RemoveEntry_inv _ _ _ _ _ _ Hremove).
    unfold xfs.GetEntry. cbn. by rewrite lookup_delete_eq.
  - intros entry _ Hne. unfold xfs.Release, xfs.used_at. cbn.
    by rewrite lookup_delete_ne.
Qed.

(** X25: [GetProjectID] always returns the identifier read off the
    filesystem, never the recorded one.  It reports an error in two cases
    only: the read-back failed and the state manager has no entry, or an
    entry exists and the identifier read back is neither [0] nor the
    recorded one.  In particular a failed read-back with an entry present
    is no error. *)
Theorem GetProjectID_result (containerId path : string) (s : Machine World)
    (id : Z) (err : option error) (w1 : World) :
  xfs.GetProjectIDFromXFS ext path (world s) = (id, err, w1) →
  handler.GetProjectID ext containerId path s =
    Ret (id,
         match xfs.Entries (xfs.state (stateManager s)) !! containerId with
         | None =>
             if notnil err
             then Some (Errorf "failed get projid from stateManager: %v")
             else None
         | Some entry =>
             if decide (id ≠ 0 ∧ xfs.ProjectID entry ≠ id)
             then Some (Errorf
               "containereId %v, wrong projied-> xfs: %v, stateManager: %v")
             else None
         end)
        {| stateManager := stateManager s;
           projectIDPool := projectIDPool s;
           world := w1;
           trace := trace s ++ [CallGetProjectIDFromXFS path;
                                CallGetEntry containerId] |}.
Proof.
  intros Hread. unfold handler.GetProjectID. eng_unfold. eng_rw Hread.
  unfold xfs.GetEntry. cbn [stateManager]. rewrite <- !app_assoc. cbn [app].
  destruct (xfs.Entries (xfs.state (stateManager s)) !! containerId)
    as [entry|]; cbn.
  - rewrite andb_true_r.
    destruct (Z.eqb_spec id 0), (Z.eqb_spec (xfs.ProjectID entry) id);
      cbn; case_decide as Hcase; try done;
      try (by destruct Hcase); exfalso; by apply Hcase.
  - rewrite andb_false_r. by destruct err.
Qed.

(** X26: creation followed by deletion gives the identifier back.  When
    every step of [handleTaskCreate] for a container succeeds and then
    every step of [handleTaskDelete] for it succeeds, with the path still
    on disk and tagged with the identifier that was allocated, the pool
    has exactly the identifiers in use it had before the creation, the
    next Allocate hands out the same identifier again, the container has
    no entry, and the entries of the other containers are as before. *)
Theorem create_then_delete
    (fuel : nat) (cfg : config.Config) (e : TaskCreate) (d : TaskDelete)
    (s : Machine World) (rootfs0 : Mount) (rootfs : list Mount)
    (option0 option1 : string) (options : list string)
    (id : Z) (p : xfs.ProjectIDPool) (w1 w2 w3 w4 w5 w6 w7 w8 : World)
    (m1 m2 : xfs.StateManager) (resolved : string) :
  let upperdir := TrimPrefix option1 "upperdir=" in
  let soft := config.DefaultSoft (config.Quota cfg) in
  let containerID := TaskCreate_ContainerID e in
  TaskDelete_ContainerID d = containerID →
  TaskCreate_Rootfs e = rootfs0 :: rootfs →
  Mount_Options rootfs0 = option0 :: option1 :: options →
  xfs.Allocate fuel (projectIDPool s) = Some (id, None, p) →
  xfs.SetProjectIDWithXFSQuota ext upperdir id (world s) = (None, w1) →
  xfs.SetProjectQuotaWithXFSQuota ext id soft soft w1 = (None, w2) →
  xfs.AddEntry ext containerID id upperdir (stateManager s) w2
    = (None, m1, w3) →
  xfs.GetSnapshotUpperdir ext containerID w3 = (resolved, None, w4) →
  xfs.os_Stat ext resolved w4 = (None, w5) →
  xfs.GetProjectIDFromXFS ext resolved w5 = (id, None, w6) →
  xfs.SetProjectQuotaWithXFSQuota ext id "0" "0" w6 = (None, w7) →
  xfs.RemoveEntry ext containerID m1 w7 = (None, m2, w8) →
  ∃ s1 s2,
    handler.handleTaskCreate ext fuel cfg e s = Ret None s1
    ∧ handler.handleTaskDelete ext d s1 = Ret None s2
    ∧ (∀ j, xfs.used_at (projectIDPool s2) j = xfs.used_at (projectIDPool s) j)
    ∧ xfs.Allocate fuel (projectIDPool s2) =
        Some (id, None, xfs.MarkUsed (projectIDPool s2) id)
    ∧ xfs.GetEntry containerID (stateManager s2) = (xfs.Entry_zero, false)
    ∧ ∀ other, other ≠ containerID →
        xfs.GetEntry other (stateManager s2)
        = xfs.GetEntry other (stateManager s).
Proof.
  intros upperdir soft containerID Hd Hrootfs Hoptions Halloc Htag Hlimit
    Hadd Hupper Hstat Hread Hclear Hremove.
  pose proof (AddEntry_inv _ _ _ _ _ _ _ _ Hadd) as Hm1.
  pose proof (RemoveEntry_inv _ _ _ _ _ _ Hremove) as Hm2.
  do 2 eexists. split; [|split].
  - unfold handler.handleTaskCreate. eng_rw Hrootfs. eng_rw Hoptions.
    eng_rw Halloc. fold upperdir. eng_rw Htag. fold soft. eng_rw Hlimit.
    fold containerID. eng_rw Hadd. reflexivity.
  - unfold handler.handleTaskDelete, handler.GetProjectID. eng_unfold.
    rewrite Hd. eng_rw Hupper. eng_rw Hstat. eng_rw Hread.
    unfold xfs.GetEntry. cbn [stateManager].
    assert (Hlook : xfs.Entries (xfs.state m1) !! containerID =
              Some {| xfs.ContainerID := containerID; xfs.ProjectID := id;
                      xfs.Upperdir := upperdir |})
      by (rewrite Hm1; cbn; apply lookup_insert_eq).
    rewrite Hlook. cbn. rewrite Z.eqb_refl, andb_false_r. cbn.
    eng_rw Hclear. eng_rw Hremove. reflexivity.
  - cbn. destruct (Allocate_Release_Allocate _ _ _ _ Halloc) as [_ Hnext].
    destruct (Allocate_loop_found _ _ _ _ _ Halloc) as [Hfree ->].
    assert (Hsame : ∀ j, xfs.used_at (xfs.Release
              (xfs.MarkUsed (projectIDPool s) id) id) j
            = xfs.used_at (projectIDPool s) j).
    { intros j. unfold xfs.Release, xfs.MarkUsed, xfs.used_at. cbn.
      rewrite lookup_delete, lookup_insert.
      case_decide; [subst; symmetry; apply Hfree|done]. }
    repeat split; try done.
    + rewrite Hm2, Hm1. unfold xfs.GetEntry. cbn.
      by rewrite lookup_delete_eq.
    + intros other Hne. rewrite Hm2, Hm1. unfold xfs.GetEntry. cbn.
      by rewrite lookup_delete_ne, lookup_insert_ne.
Qed.

End HandlerBehaviour.

(** ** The reconciliation passes and the event loop *)

Section ReconciliationBehaviour.
Context {World : Type} (ext : xfs.Externals World).
Import engine.

Lemma keeps_refl (s : Machine World) : keeps s s.
Proof. by split. Qed.

Lemma keeps_trans (s1 s2 s3 : Machine World) :
  keeps s1 s2 → keeps s2 s3 → keeps s1 s3.
Proof. intros [H1 H2] [H3 H4]. split; eauto. Qed.

Lemma for_range_keeps {A : Type} (body : A → Eng World unit) (l : list A) :
  (∀ x s s', body x s = Ret tt s' → keeps s s') →
  ∀ s s', for_range l body s = Ret tt s' → keeps s s'.
Proof.
  intros Hbody. induction l as [|x l IH]; intros s s'; cbn.
  - intros [= <-]. apply keeps_refl.
  - unfold bind. destruct (body x s) as [[] s1| |] eqn:Hx; [|done|done].
    intros Hl. eapply keeps_trans; [by eapply Hbody|by apply IH].
Qed.

(** The pool after the steps of a creation sequence that follow a
    successful Allocate: the allocated pool, or that pool after the
    release of the identifier. *)
Lemma keeps_after_Allocate fuel (s : Machine World) id p m w t :
  xfs.Allocate fuel (projectIDPool s) = Some (id, None, p) →
  (∀ c entry,
     xfs.Entries (xfs.state (stateManager s)) !! c = Some entry →
     xfs.Entries (xfs.state m) !! c = Some entry) →
  keeps s {| stateManager := m; projectIDPool := p; world := w; trace := t |}
  ∧ keeps s {| stateManager := m; projectIDPool := xfs.Release p id;
               world := w; trace := t |}.
Proof.
  intros Halloc Hentries.
  destruct (Allocate_loop_found _ _ _ _ _ Halloc) as [Hfree ->].
  split; (split; [|done]); intros j Hj; cbn.
  - unfold xfs.MarkUsed, xfs.used_at. cbn. rewrite lookup_insert.
    by case_decide.
  - unfold xfs.Release, xfs.MarkUsed, xfs.used_at. cbn.
    rewrite lookup_delete, lookup_insert.
    case_decide; [subst; congruence|done].
Qed.

Lemma keeps_entries_AddEntry containerID projectID upperdir m w err m' w' :
  xfs.Entries (xfs.state m) !! containerID = None →
  xfs.AddEntry ext containerID projectID upperdir m w = (err, m', w') →
  ∀ c entry, xfs.Entries (xfs.state m) !! c = Some entry →
             xfs.Entries (xfs.state m') !! c = Some entry.
Proof.
  intros Hnone Hadd c entry Hc.
  rewrite (AddEntry_inv _ _ _ _ _ _ _ _ _ Hadd). cbn.
  rewrite lookup_insert_ne; [done|]. congruence.
Qed.

Lemma restoreQuota_keeps fuel cfg containerID upperdir s r s' :
  xfs.Entries (xfs.state (stateManager s)) !! containerID = None →
  handler.restoreQuota ext fuel cfg containerID upperdir s = Ret r s' →
  keeps s s'.
Proof.
  intros Hnone. unfold handler.restoreQuota. eng_unfold.
  destruct (xfs.Allocate fuel (projectIDPool s)) as [[[id [e|]] p]|]
    eqn:Halloc; [| |done].
  { destruct (Allocate_loop_error_unchanged _ _ _ _ _ _ Halloc) as [_ ->].
    intros [= _ <-]. by split. }
  eng_unfold.
  destruct (xfs.SetProjectIDWithXFSQuota ext upperdir id (world s))
    as [[e|] w1]; eng_unfold.
  { intros [= _ <-]. by apply (keeps_after_Allocate fuel s id p). }
  destruct (xfs.SetProjectQuotaWithXFSQuota ext id _ _ w1)
    as [[e|] w2]; eng_unfold.
  { intros [= _ <-]. by apply (keeps_after_Allocate fuel s id p). }
  destruct (xfs.AddEntry ext containerID id upperdir (stateManager s) w2)
    as [[err m] w3] eqn:Hadd.
  intros [= _ <-]. apply (keeps_after_Allocate fuel s id p); [done|].
  by eapply keeps_entries_AddEntry.
Qed.

Lemma handler_syncState_body_keeps fuel cfg id s s' :
  handler.syncState_body ext fuel cfg id s = Ret tt s' → keeps s s'.
Proof.
  unfold handler.syncState_body. eng_unfold.
  destruct (xfs.GetSnapshotUpperdir ext id (world s)) as [[upperdir [e|]] w1];
    eng_unfold; [intros [= <-]; by split|].
  destruct (xfs.os_Stat ext upperdir w1) as [staterr w2]; eng_unfold.
  destruct (os_IsNotExist staterr); [intros [= <-]; by split|].
  unfold xfs.GetEntry. cbn [stateManager].
  destruct (xfs.Entries (xfs.state (stateManager s)) !! id) as [entry|]
    eqn:Hentry; cbn [negb]; [intros [= <-]; by split|].
  match goal with
  | |- context [handler.restoreQuota ext fuel cfg id upperdir ?s1] =>
      destruct (handler.restoreQuota ext fuel cfg id upperdir s1)
        as [r s2| |] eqn:Hrestore; [|done|done]
  end.
  intros [= <-]. apply restoreQuota_keeps in Hrestore; [|done].
  destruct Hrestore as [Hused Hentries]. by split.
Qed.



(** X28: the reconciliation pass of package handler loses nothing:
    every identifier that was in use before the pass is in use after it,
    and every entry of the state manager is still there, unchanged. *)
Theorem handler_syncState_keeps_reservations (fuel : nat)
    (cfg : config.Config) (s s' : Machine World) (r : option error) :
  handler.syncState ext fuel cfg s = Ret r s' →
  (∀ j, xfs.used_at (projectIDPool s) j = true →
        xfs.used_at (projectIDPool s') j = true)
  ∧ (∀ c entry,
       xfs.Entries (xfs.state (stateManager s)) !! c = Some entry →
       xfs.Entries (xfs.state (stateManager s')) !! c = Some entry).
Proof.
  unfold handler.syncState. eng_unfold.
  destruct (xfs.client_Containers ext (world s)) as [[containers [e|]] w1];
    cbn; [by intros [= _ <-]|].
  destruct (for_range containers _ _) as [[] s2| |] eqn:Hloop; [|done|done].
  intros [= _ <-].
  apply (for_range_keeps _ _ (handler_syncState_body_keeps fuel cfg))
    in Hloop.
  apply Hloop.
Qed.


(** X30: the loop of [startEventListener] ends at an error of the
    subscription or at cancellation and at nothing else.  As long as only
    events arrive it goes on, whatever their handlers return; at the first
    error of the subscription it returns that error, and at cancellation
    nil, in the state the events before left; what arrives later is not
    handled. *)
Theorem listen_ends_at_stream_error_or_cancellation (fuel : nat)
    (cfg : config.Config) (envelopes : list Envelope) (s : Machine World) :
  let events := RecvEnvelope <$> envelopes in
  let ends_with (result : option error) :=
    match handler_run.listen ext fuel cfg events s with
    | Ret _ s' => Ret (Some result) s'
    | Panic msg => Panic msg
    | OutOfFuel => OutOfFuel
    end in
  (∀ r s', handler_run.listen ext fuel cfg events s = Ret r s' → r = None)
  ∧ (∀ err later,
       handler_run.listen ext fuel cfg (events ++ RecvErr err :: later) s
       = ends_with (Some err))
  ∧ (∀ later,
       handler_run.listen ext fuel cfg (events ++ RecvDone :: later) s
       = ends_with None).
Proof.
  revert s. induction envelopes as [|envelope envelopes IH]; intros s; cbn.
  - repeat split; try done. by intros r s' [= <- _].
  - unfold bind.
    destruct (handler.handleEvent ext fuel cfg envelope s) as [a s1| |];
      [|done|done].
    apply IH.
Qed.

End ReconciliationBehaviour.

(** ** The further properties on the in-memory worlds *)

Section PoolWitnesses.
Import xfs.

Lemma Allocate_result_witness :
  let p := MarkUsed (NewProjectIDPool 1 3) 1 in
  0 <= minID p < 2 ^ 32
  ∧ Allocate 5 p = Some (2, None, MarkUsed p 2)
  ∧ used_at p 2 = false ∧ used_at (MarkUsed p 2) 2 = true
  ∧ (∀ j, j ≠ 2 → used_at (MarkUsed p 2) j = used_at p j)
  ∧ minID (MarkUsed p 2) = minID p ∧ maxID (MarkUsed p 2) = maxID p
  ∧ 2 <= maxID p.
Proof.
  intros p. split; [cbn; lia|]. split; [reflexivity|].
  apply (Allocate_result 5 p (MarkUsed p 2) 2 None); [cbn; lia|reflexivity].
Defined.

Lemma Allocate_below_max_uint32_witness :
  let p := MarkUsed (MarkUsed (NewProjectIDPool 1 3) 1) 3 in
  (∀ k, minID p <= k <= maxID p → used_at p k = false →
     ∃ k', minID p <= k' <= k ∧ used_at p k' = false
       ∧ (∀ j, minID p <= j < k' → used_at p j = true)
       ∧ Allocate 4 p = Some (k', None, MarkUsed p k'))
  ∧ ((∀ j, minID p <= j <= maxID p → used_at p j = true) →
     Allocate 4 p = Some (0, Some (Errorf "no available project ID"), p)).
Proof.
  intros p.
  apply (Allocate_below_max_uint32 4 p); [cbn; lia|reflexivity|].
  unfold range_fuel. cbn [minID maxID p MarkUsed set_used NewProjectIDPool].
  lia.
Defined.

Lemma Allocate_in_sequence_witness :
  ∃ p, run_ops 4 (NewProjectIDPool 1 3) (repeat OpAllocate 3) = Some p
    ∧ (∀ j, used_at p j = true ↔ 1 <= j < 1 + Z.of_nat 3)
    ∧ Allocate 4 p =
        if decide (1 + Z.of_nat 3 <= 3)
        then Some (1 + Z.of_nat 3, None, MarkUsed p (1 + Z.of_nat 3))
        else Some (0, Some (Errorf "no available project ID"), p).
Proof.
  apply (Allocate_in_sequence 1 3 3 4); [lia|reflexivity|lia|lia].
Defined.

End PoolWitnesses.

Section StateStoreWitnesses.
Import xfs.

(** The state file is missing: it is created. *)
Lemma NewStateManager_missing_file_witness :
  let w := fake_codec.world_files None in
  let path := "/var/lib/quota/state.json" in
  os_ReadFile fake_codec.externals path w = ([], Some ErrNotExist, w)
  ∧ NewStateManager fake_codec.externals path w =
      (Some (fake.manager ∅), None,
       fake.set_files w (<[path := []]> (fake.files w))).
Proof.
  intros w path. split; [reflexivity|].
  refine (proj1 (NewStateManager_missing_file fake_codec.externals path w w
                   [] eq_refl) w _ eq_refl eq_refl).
Defined.

(** The state file holds one byte that is no document. *)
Lemma NewStateManager_malformed_file_witness :
  let w := fake_codec.world_files (Some [Byte.x00]) in
  NewStateManager fake_codec.externals "/var/lib/quota/state.json" w =
    (None, Some (ErrExternal "invalid character"), w).
Proof.
  intros w.
  apply (NewStateManager_malformed_file fake_codec.externals
           "/var/lib/quota/state.json" w w Byte.x00 []
           {| Entries := ∅ |}); reflexivity.
Defined.

(** The entry of [c1] is written and found again by a restart. *)
Lemma AddEntry_then_restart_witness :
  let w := fake_codec.world_files None in
  let path := "/var/lib/quota/state.json" in
  let w1 := fake.set_files w (<[path := fake_codec.doc_c1]> (fake.files w)) in
  let m' := fake.manager {[ "c1" := fake.entry_c1 1 ]} in
  AddEntry fake_codec.externals "c1" 1 "/var/lib/x/c1" (fake.manager ∅) w
    = (None, m', w1)
  ∧ NewStateManager fake_codec.externals path w1 = (Some m', None, w1).
Proof.
  intros w path w1 m'.
  apply (AddEntry_then_restart fake_codec.externals "c1" 1 "/var/lib/x/c1"
           (fake.manager ∅) w w1 w1 Byte.x7b [Byte.x31; Byte.x7d]);
    by vm_compute.
Defined.

End StateStoreWitnesses.

Section ToolsWitnesses.

(** A snapshot with two overlay mounts and a bind mount after them: the
    path is the last [upperdir=] option of the second overlay mount. *)
Lemma GetSnapshotUpperdir_last_upperdir_option_witness :
  let mounts w :=
    ([{| Mount_Type := "overlay"; Mount_Options := ["upperdir=/old"] |};
      {| Mount_Type := "overlay";
         Mount_Options := ["upperdir=/older"; "upperdir=/var/lib/x/c1";
                           "workdir=/work"] |};
      {| Mount_Type := "bind"; Mount_Options := ["upperdir=/bind"] |}],
     None, w) in
  let ext :=
    {| xfs.os_ReadFile := xfs.os_ReadFile fake_static.externals;
       xfs.os_WriteFile := xfs.os_WriteFile fake_static.externals;
       xfs.os_MkdirAll := xfs.os_MkdirAll fake_static.externals;
       xfs.os_Create := xfs.os_Create fake_static.externals;
       xfs.os_Stat := xfs.os_Stat fake_static.externals;
       xfs.filepath_Dir := xfs.filepath_Dir fake_static.externals;
       xfs.json_MarshalIndent := fake.MarshalIndent;
       xfs.json_Unmarshal := fake.Unmarshal;
       xfs.exec_CombinedOutput :=
         xfs.exec_CombinedOutput fake_static.externals;
       xfs.regexp_FindStringSubmatch :=
         xfs.regexp_FindStringSubmatch fake_static.externals;
       xfs.strconv_ParseUint := fake.ParseUint;
       xfs.client_Containers := xfs.client_Containers fake_static.externals;
       xfs.client_LoadContainer :=
         xfs.client_LoadContainer fake_static.externals;
       xfs.container_Info := xfs.container_Info fake_static.externals;
       xfs.snapshotter_Mounts := λ _ _ w, mounts w |} in
  xfs.GetSnapshotUpperdir ext "c1" tt = ("/var/lib/x/c1", None, tt).
Proof.
  intros mounts ext.
  apply (GetSnapshotUpperdir_last_upperdir_option ext "c1" tt tt tt tt
           {| Snapshotter := "overlayfs"; SnapshotKey := "c1" |}
           [{| Mount_Type := "overlay"; Mount_Options := ["upperdir=/old"] |}]
           [{| Mount_Type := "bind"; Mount_Options := ["upperdir=/bind"] |}]
           ["upperdir=/older"] ["workdir=/work"] "/var/lib/x/c1");
    try reflexivity.
  - repeat constructor.
  - repeat constructor.
  - discriminate.
Defined.

End ToolsWitnesses.

Section ConfigWitnesses.


Lemma LoadConfig_fills_defaults_witness :
  let w := fake_codec.world_files None in
  config_file.LoadConfig fake_codec.externals fake_codec.decode_config
    "/etc/containerd-quota/config.json" w
  = (Some (fake.cfg 1 10 "10g" "20g"), None, w).
Proof.
  intros w.
  apply (LoadConfig_fills_defaults fake_codec.externals
           fake_codec.decode_config "/etc/containerd-quota/config.json" w w
           fake_codec.doc_empty
           {| config.StateFilePath := "/var/lib/quota/state.json";
              config.Project := {| config.IDMin := 1; config.IDMax := 10 |};
              config.MetricsPort := "";
              config.ContainerdSock := "/run/containerd/containerd.sock";
              config.Quota := {| config.DefaultSoft := "";
                                 config.DefaultHard := "20g" |};
              config.Namespace := "" |});
    try reflexivity; cbn; (discriminate || lia).
Defined.


(** Start-up with the configuration file and no state file. *)
Lemma NewRFSQuota_starts_with_empty_pool_witness :
  let w := fake_codec.world_files None in
  ∃ s w',
    handler_run.NewRFSQuota fake_codec.externals fake_codec.decode_config
      "/etc/containerd-quota/config.json" w
    = (Some (fake.cfg 1 10 "10g" "20g", s), None, w')
    ∧ engine.projectIDPool s = xfs.NewProjectIDPool 1 10
    ∧ (∀ id, xfs.used_at (engine.projectIDPool s) id = false)
    ∧ ∀ fuel, xfs.Allocate (S fuel) (engine.projectIDPool s) =
        Some (1, None, xfs.MarkUsed (engine.projectIDPool s) 1).
Proof.
  intros w. do 2 eexists. split; [reflexivity|].
  edestruct (NewRFSQuota_starts_with_empty_pool fake_codec.externals
               fake_codec.decode_config "/etc/containerd-quota/config.json" w)
    as (_ & _ & Hpool & Hfree & _ & _ & Hfirst); [reflexivity|].
  split; [reflexivity|]. split; [exact Hfree|exact Hfirst].
Defined.

End ConfigWitnesses.

Section HandlerWitnesses.
Import engine.

(** The creation of [c1] when every step succeeds. *)
Lemma handleTaskCreate_success_witness :
  let s := fake.machine (fake.manager ∅) (xfs.NewProjectIDPool 1 10)
             (fake.world_c1 None) in
  ∃ s', handler.handleTaskCreate fake.externals 12 (fake.cfg 1 10 "10g" "10g")
          fake.create_c1 s = Ret None s'
    ∧ trace s' = [CallAllocate; CallSetProjectID "/var/lib/x/c1" 1;
                  CallSetProjectQuota 1 "10g" "10g";
                  CallAddEntry "c1" 1 "/var/lib/x/c1"]
    ∧ xfs.used_at (projectIDPool s) 1 = false
    ∧ xfs.used_at (projectIDPool s') 1 = true
    ∧ xfs.GetEntry "c1" (stateManager s') = (fake.entry_c1 1, true).
Proof.
  intros s.
  edestruct (handleTaskCreate_success fake.externals 12
               (fake.cfg 1 10 "10g" "10g") fake.create_c1 s)
    as (Hrun & Hfree & Hused & Hentry); [reflexivity..|].
  eexists. split; [exact Hrun|]. split; [reflexivity|].
  split; [exact Hfree|]. split; [exact Hused|exact Hentry].
Defined.

(** The creation of [c1] on a pool over [1, 2] with both in use. *)
Lemma handleTaskCreate_pool_exhausted_witness :
  let p := xfs.MarkUsed (xfs.MarkUsed (xfs.NewProjectIDPool 1 2) 1) 2 in
  let s := fake.machine (fake.manager ∅) p (fake.world_c1 None) in
  handler.handleTaskCreate fake.externals 12 (fake.cfg 1 2 "10g" "10g")
    fake.create_c1 s
  = Ret (Some (Errorf "no available project ID"))
        {| stateManager := stateManager s; projectIDPool := projectIDPool s;
           world := world s; trace := trace s ++ [CallAllocate] |}.
Proof.
  intros p s.
  eapply (handleTaskCreate_pool_exhausted fake.externals 12
            (fake.cfg 1 2 "10g" "10g") fake.create_c1 s); reflexivity.
Defined.

(** The creation of [c1] on a world where [xfs_quota -c "project ..."]
    fails. *)
Lemma handleTaskCreate_Tag_failure_witness :
  let w := fake.with_failures (fake.world_c1 None) false true false in
  let s := fake.machine (fake.manager ∅) (xfs.NewProjectIDPool 1 10) w in
  ∃ s', handler.handleTaskCreate fake.externals 12 (fake.cfg 1 10 "10g" "10g")
          fake.create_c1 s
        = Ret (Some (Errorf "failed to execute xfs_quota: %v, output: %s")) s'
    ∧ trace s' = [CallAllocate; CallSetProjectID "/var/lib/x/c1" 1;
                  CallRelease 1]
    ∧ stateManager s' = stateManager s
    ∧ ∀ j, xfs.used_at (projectIDPool s') j
           = xfs.used_at (projectIDPool s) j.
Proof.
  intros w s.
  edestruct (handleTaskCreate_Tag_failure fake.externals 12
               (fake.cfg 1 10 "10g" "10g") fake.create_c1 s)
    as (Hrun & _ & Hsame); [reflexivity..|].
  eexists. split; [exact Hrun|]. split; [reflexivity|].
  split; [reflexivity|exact Hsame].
Defined.

(** A creation event without a mount. *)
Lemma handleTaskCreate_panics_on_short_event_witness :
  let e := {| TaskCreate_ContainerID := "c1"; TaskCreate_Rootfs := [] |} in
  let s := fake.machine (fake.manager ∅) (xfs.NewProjectIDPool 1 10)
             (fake.world_c1 None) in
  handler.handleTaskCreate fake.externals 12 (fake.cfg 1 10 "10g" "10g") e s
    = Panic "index out of range"
  ∧ test_main.runEventListener_TaskCreate fake.externals 12
      (fake.cfg_flat 1 10 "10g" "10g") e s
    = Panic "index out of range".
Proof.
  intros e s.
  exact (handleTaskCreate_panics_on_short_event fake.externals 12
           (fake.cfg 1 10 "10g" "10g") (fake.cfg_flat 1 10 "10g" "10g")
           e s I).
Defined.

(** The deletion of a container that containerd does not know. *)
Lemma handleTaskDelete_unresolved_path_witness :
  let s := fake.machine (fake.manager {[ "c9" := fake.entry_c1 7 ]})
             (xfs.MarkUsed (xfs.NewProjectIDPool 1 10) 7)
             (fake.world_c1 (Some 7)) in
  handler.handleTaskDelete fake.externals {| TaskDelete_ContainerID := "c9" |} s
  = Ret (Some (ErrExternal "container not found"))
        {| stateManager := stateManager s; projectIDPool := projectIDPool s;
           world := world s;
           trace := trace s ++ [CallGetSnapshotUpperdir "c9"] |}.
Proof.
  intros s.
  eapply (handleTaskDelete_unresolved_path fake.externals
            {| TaskDelete_ContainerID := "c9" |} s); reflexivity.
Defined.

(** The deletion of [c1], recorded with identifier [7], when its path is
    no longer on disk: [7] stays in use. *)
Lemma handleTaskDelete_missing_path_witness :
  let w := {| fake.files := ∅; fake.paths := []; fake.tags := ∅;
              fake.live := [("c1", "/var/lib/x/c1")];
              fake.write_fails := false; fake.tag_fails := false;
              fake.limit_fails := false; fake.readback_fails := false;
              fake.commands := [] |} in
  let s := fake.machine (fake.manager {[ "c1" := fake.entry_c1 7 ]})
             (xfs.MarkUsed (xfs.NewProjectIDPool 1 10) 7) w in
  ∃ s', handler.handleTaskDelete fake.externals fake.delete_c1 s = Ret None s'
    ∧ trace s' = [CallGetSnapshotUpperdir "c1"; CallStat "/var/lib/x/c1";
                  CallSetProjectQuota 0 "0" "0"; CallRemoveEntry "c1";
                  CallRelease 0]
    ∧ xfs.GetEntry "c1" (stateManager s') = (xfs.Entry_zero, false)
    ∧ xfs.used_at (projectIDPool s') 7 = true.
Proof.
  intros w s.
  edestruct (handleTaskDelete_missing_path fake.externals fake.delete_c1 s)
    as (Hrun & Hgone & Hkept); [reflexivity..|].
  eexists. split; [exact Hrun|]. split; [reflexivity|].
  split; [exact Hgone|].
  etransitivity; [apply (Hkept (fake.entry_c1 7)); [reflexivity|discriminate]|].
  reflexivity.
Defined.

(** The read-back fails and the state manager has the entry of [c1]:
    identifier [0] and no error. *)
Lemma GetProjectID_result_witness :
  let w := {| fake.files := ∅; fake.paths := ["/var/lib/x/c1"];
              fake.tags := {[ "/var/lib/x/c1" := 7 ]};
              fake.live := [("c1", "/var/lib/x/c1")];
              fake.write_fails := false; fake.tag_fails := false;
              fake.limit_fails := false; fake.readback_fails := true;
              fake.commands := [] |} in
  let s := fake.machine (fake.manager {[ "c1" := fake.entry_c1 7 ]})
             (xfs.MarkUsed (xfs.NewProjectIDPool 1 10) 7) w in
  handler.GetProjectID fake.externals "c1" "/var/lib/x/c1" s
  = Ret (0, None)
        {| stateManager := stateManager s; projectIDPool := projectIDPool s;
           world := w;
           trace := [CallGetProjectIDFromXFS "/var/lib/x/c1";
                     CallGetEntry "c1"] |}.
Proof.
  intros w s.
  exact (GetProjectID_result fake.externals "c1" "/var/lib/x/c1" s 0
           (Some (Errorf "failed to execute xfs_io: %v, output: %s")) w
           eq_refl).
Defined.

(** The creation and then the deletion of [c1], whose path is tagged
    [1]. *)
Lemma create_then_delete_witness :
  let s := fake.machine (fake.manager {[ "c0" := fake.entry_c1 3 ]})
             (xfs.MarkUsed (xfs.NewProjectIDPool 1 10) 3)
             (fake.world_c1 (Some 1)) in
  ∃ s1 s2,
    handler.handleTaskCreate fake.externals 12 (fake.cfg 1 10 "10g" "10g")
      fake.create_c1 s = Ret None s1
    ∧ handler.handleTaskDelete fake.externals fake.delete_c1 s1 = Ret None s2
    ∧ (∀ j, xfs.used_at (projectIDPool s2) j = xfs.used_at (projectIDPool s) j)
    ∧ xfs.Allocate 12 (projectIDPool s2) =
        Some (1, None, xfs.MarkUsed (projectIDPool s2) 1)
    ∧ xfs.GetEntry "c1" (stateManager s2) = (xfs.Entry_zero, false)
    ∧ ∀ other, other ≠ "c1" →
        xfs.GetEntry other (stateManager s2)
        = xfs.GetEntry other (stateManager s).
Proof.
  intros s.
  eapply (create_then_delete fake.externals 12 (fake.cfg 1 10 "10g" "10g")
            fake.create_c1 fake.delete_c1 s); reflexivity.
Defined.

End HandlerWitnesses.

Section ReconciliationWitnesses.
Import engine.

(** The pass of package handler with an entry for a container [c0] that
    is not live ([3] in use) and no entry for the live [c1]: [c1] gets
    identifier [1], and [3] and the entry of [c0] stay. *)
Lemma handler_syncState_keeps_reservations_witness :
  let s := fake.machine (fake.manager {[ "c0" := fake.entry_c1 3 ]})
             (xfs.MarkUsed (xfs.NewProjectIDPool 1 10) 3)
             (fake.world_c1 None) in
  ∃ s', handler.syncState fake.externals 12 (fake.cfg 1 10 "10g" "10g") s
        = Ret None s'
    ∧ xfs.GetEntry "c1" (stateManager s') = (fake.entry_c1 1, true)
    ∧ (∀ j, xfs.used_at (projectIDPool s) j = true →
            xfs.used_at (projectIDPool s') j = true)
    ∧ (∀ c entry,
         xfs.Entries (xfs.state (stateManager s)) !! c = Some entry →
         xfs.Entries (xfs.state (stateManager s')) !! c = Some entry).
Proof.
  intros s. eexists. split; [by vm_compute|]. split; [by vm_compute|].
  eapply (handler_syncState_keeps_reservations fake.externals 12
            (fake.cfg 1 10 "10g" "10g") s).
  by vm_compute.
Defined.


End ReconciliationWitnesses.
